(** * Shared-memory (SMEM) heap allocator and address translator

    A shallow embedding of [arch/arm/mach-msm/smem.c]: the address
    translator ([smem_phys_to_virt], [smem_virt_to_phys]) over the region
    registry [smem_areas], and the table-of-contents heap
    ([smem_get_entry], [smem_find], [smem_alloc], [smem_alloc2]) that lives
    in the shared root structure at [MSM_SHARED_RAM_BASE].

    Machine model: 32-bit ARM without LPAE, so [unsigned], [uintptr_t],
    [phys_addr_t] and [resource_size_t] are all 32-bit unsigned integers.
    They are represented as [Z] with the wrap-around written out; pointers
    are their addresses, [NULL] being address 0. *)

From Stdlib Require Import ZArith Lia List Bool.
From stdpp Require Import base list strings.
Import ListNotations.

Local Open Scope Z_scope.

(** ** Machine integers *)

Definition WORD_BITS : Z := 32.
Definition WORD_MOD : Z := 2 ^ WORD_BITS.

(** Value range of a 32-bit unsigned object. *)
Definition u32 (x : Z) : Prop := 0 <= x < WORD_MOD.

(** Truncation to [unsigned] / [phys_addr_t] / [uintptr_t]. *)
Definition wrap (x : Z) : Z := x mod WORD_MOD.

Definition NULL : Z := 0.

(** [OVERFLOW_ADD_UNSIGNED(type, a, b)]:
    [(((type)~0 - (a)) < (b) ? true : false)], at a 32-bit [type]. *)
Definition OVERFLOW_ADD_UNSIGNED (a b : Z) : bool :=
  wrap ((WORD_MOD - 1) - a) <? b.

(** Modelled from the spec: the macro [ALIGN] of [linux/kernel.h], which is
    not among the sources.  "rounds [requestedSize] up to an 8-byte
    alignment boundary"; on an [unsigned] operand the sum is taken in
    32-bit arithmetic, [(x + (a - 1)) & ~(a - 1)]. *)
Definition ALIGN (x a : Z) : Z :=
  Z.land (wrap (x + (a - 1))) (wrap (Z.lnot (a - 1))).

(** ** Platform constants

    [smem_private.h], [mach/msm_iomap.h] and [mach/msm_smem.h] are not
    among the sources; the constants they define are parameters. *)

Record platform : Type := Platform {
  MSM_SHARED_RAM_BASE : Z;   (* virtual address of the primary region *)
  MSM_SHARED_RAM_SIZE : Z;
  msm_shared_ram_phys : Z;   (* physical address of the primary region *)
  SMEM_NUM_ITEMS : Z;        (* capacity of the table of contents *)
  SMEM_FIXED_ITEM_LAST : Z;  (* last identifier of the fixed range *)
  BASE_ADDR_MASK : Z         (* base-address bits of [reserved] *)
}.

(** ** Data model *)

(** Modelled from the spec: [struct smem_area], declared in
    [smem_private.h], which is not among the sources.  "Region Descriptor:
    {physical base address, virtual base address, size}", under the field
    names [smem.c] uses. *)
Record smem_area : Type := SmemArea {
  phys_addr : Z;
  area_size : Z;   (* the field [size] *)
  virt_addr : Z
}.

(** Modelled from the spec: [struct smem_heap_entry] of [smem_private.h].
    "Heap Item Slot (TOC entry): {allocated flag, byte offset from heap
    base, byte size, reserved/flags field encoding an optional explicit
    base-address override}"; all four are [unsigned]. *)
Record smem_heap_entry : Type := HeapEntry {
  allocated : Z;
  offset : Z;
  size : Z;
  reserved : Z
}.

(** Modelled from the spec: [struct smem_heap_info] of [smem_private.h].
    "Heap Header: {initialized flag, free-space offset cursor, remaining
    free byte count}"; all [unsigned]. *)
Record smem_heap_info : Type := HeapInfo {
  initialized : Z;
  free_offset : Z;
  heap_remaining : Z
}.

(** Modelled from the spec: [struct smem_shared] of [smem_private.h].
    "Shared Root Structure: the heap header plus the TOC array"; these are
    the fields that [smem.c] reads and writes. *)
Record smem_shared : Type := Shared {
  heap_info : smem_heap_info;
  heap_toc : list smem_heap_entry
}.

(** The diagnostics that [smem.c] prints with [pr_err]. *)
Inductive kmsg : Type :=
| Err_overflow (virt off : Z)
      (* "%s: overflow %p %x" *)
| Err_find_wrong_size (id size_in sz : Z)
      (* "smem_find(%d, %d): wrong size %d" *)
| Err_heap_not_initialized
      (* "%s: smem heap info not initialized" *)
| Err_alloc_wrong_size (stored size_in : Z)
      (* "%s: wrong size %u (expected %u)" *)
| Err_not_enough_memory (remaining required : Z).
      (* "%s: not enough memory %u (required %u)" *)

(** The globals of [smem.c], the shared memory and the kernel log.
    [smem_areas] is [None] while the pointer is [NULL]; otherwise it is the
    array of [num_smem_areas] descriptors. *)
Record smem_state : Type := State {
  smem_areas : option (list smem_area);
  shared : smem_shared;
  klog : list kmsg
}.

(** ** State monad

    The C functions read the globals and read and write the shared root
    structure in place; here every function is a state transformer over
    [smem_state]. *)

Definition SM (A : Type) : Type := smem_state -> A * smem_state.

#[global] Instance SM_ret : MRet SM := fun A (x : A) s => (x, s).
#[global] Instance SM_bind : MBind SM :=
  fun A B (f : A -> SM B) (m : SM A) s => let (x, s') := m s in f x s'.

Definition zero_entry : smem_heap_entry := HeapEntry 0 0 0 0.

(** The slot [toc[id]] of a state. *)
Definition toc_entry (s : smem_state) (id : Z) : smem_heap_entry :=
  default zero_entry (heap_toc (shared s) !! Z.to_nat id).

(** [shared->heap_info] *)
Definition read_heap_info : SM smem_heap_info :=
  fun s => (heap_info (shared s), s).

Definition write_heap_info (f : smem_heap_info -> smem_heap_info) : SM unit :=
  fun s =>
    (tt, State (smem_areas s)
               (Shared (f (heap_info (shared s))) (heap_toc (shared s)))
               (klog s)).

(** [toc[id]]; every access in [smem.c] follows the check
    [id >= SMEM_NUM_ITEMS], so it stays inside the array when the table has
    [SMEM_NUM_ITEMS] slots. *)
Definition read_toc (id : Z) : SM smem_heap_entry :=
  fun s => (toc_entry s id, s).

(** A store to one field of [toc[id]]. *)
Definition write_toc (id : Z) (f : smem_heap_entry -> smem_heap_entry) : SM unit :=
  fun s =>
    (tt, State (smem_areas s)
               (Shared (heap_info (shared s))
                       (alter f (Z.to_nat id) (heap_toc (shared s))))
               (klog s)).

Definition read_areas : SM (option (list smem_area)) :=
  fun s => (smem_areas s, s).

Definition pr_err (m : kmsg) : SM unit :=
  fun s => (tt, State (smem_areas s) (shared s) (klog s ++ [m])).

Definition set_allocated (v : Z) (e : smem_heap_entry) : smem_heap_entry :=
  HeapEntry v (offset e) (size e) (reserved e).

Definition set_offset (v : Z) (e : smem_heap_entry) : smem_heap_entry :=
  HeapEntry (allocated e) v (size e) (reserved e).

Definition set_size (v : Z) (e : smem_heap_entry) : smem_heap_entry :=
  HeapEntry (allocated e) (offset e) v (reserved e).

Definition add_free_offset (v : Z) (h : smem_heap_info) : smem_heap_info :=
  HeapInfo (initialized h) (wrap (free_offset h + v)) (heap_remaining h).

Definition sub_heap_remaining (v : Z) (h : smem_heap_info) : smem_heap_info :=
  HeapInfo (initialized h) (free_offset h) (wrap (heap_remaining h - v)).

(** ** Address translator *)

Section Translator.
Context (P : platform).

(** The test of the [for] loop of [smem_phys_to_virt]: [true] when the
    loop [continue]s past area [a]. *)
Definition area_skipped (a : smem_area) (base off : Z) : bool :=
  (base <? phys_addr a)
  || (wrap (phys_addr a + area_size a) <=? wrap (base + off)).

(** The [for] loop of [smem_phys_to_virt]. *)
Fixpoint phys_to_virt_scan (areas : list smem_area) (base off : Z) : SM Z :=
  match areas with
  | [] => mret NULL
  | a :: rest =>
      if area_skipped a base off then phys_to_virt_scan rest base off
      else if OVERFLOW_ADD_UNSIGNED (virt_addr a) off then
        pr_err (Err_overflow (virt_addr a) off);; mret NULL
      else mret (wrap (virt_addr a + off))
  end.

(** [smem_phys_to_virt(base, offset)] *)
Definition smem_phys_to_virt (base off : Z) : SM Z :=
  if OVERFLOW_ADD_UNSIGNED base off then mret NULL
  else
    areas ← read_areas;
    match areas with
    | None =>
        let phys := msm_shared_ram_phys P in
        let sz := MSM_SHARED_RAM_SIZE P in
        if (phys <=? base) && (wrap (base + off) <? wrap (phys + sz)) then
          if OVERFLOW_ADD_UNSIGNED (MSM_SHARED_RAM_BASE P) off then
            pr_err (Err_overflow (MSM_SHARED_RAM_BASE P) off);; mret NULL
          else mret (wrap (MSM_SHARED_RAM_BASE P + off))
        else mret NULL
    | Some l => phys_to_virt_scan l base off
    end.

(** The test of the [for] loop of [smem_virt_to_phys]: [smem_address]
    lies in [virt_addr, vend). *)
Definition area_holds (a : smem_area) (smem_address : Z) : bool :=
  let vend := wrap (virt_addr a + area_size a) in
  (virt_addr a <=? smem_address) && (smem_address <? vend).

(** The [for] loop of [smem_virt_to_phys]; [phys_addr] is still 0 when no
    area matches. *)
Fixpoint virt_to_phys_scan (areas : list smem_area) (smem_address : Z) : Z :=
  match areas with
  | [] => 0
  | a :: rest =>
      if area_holds a smem_address then
        wrap (wrap (smem_address - virt_addr a) + phys_addr a)
      else virt_to_phys_scan rest smem_address
  end.

(** [smem_virt_to_phys(smem_address)] *)
Definition smem_virt_to_phys (smem_address : Z) : SM Z :=
  areas ← read_areas;
  match areas with
  | None => mret 0
  | Some l => mret (virt_to_phys_scan l smem_address)
  end.

End Translator.

(** ** Heap and table of contents *)

Section Heap.
Context (P : platform).

(** [smem_get_entry(id, &size)].  The result is the returned pointer and
    what the call stored to [*size]: [None] when it stored nothing.  The
    remote spinlock is taken and released around the access when
    [spinlocks_initialized]; it has no effect on a sequential run. *)
Definition smem_get_entry (id : Z) : SM (Z * option Z) :=
  if SMEM_NUM_ITEMS P <=? id then mret (NULL, None)
  else
    e ← read_toc id;
    if negb (allocated e =? 0) then
      let phys_base := wrap (Z.land (reserved e) (BASE_ADDR_MASK P)) in
      let phys_base :=
        if phys_base =? 0 then msm_shared_ram_phys P else phys_base in
      ret ← smem_phys_to_virt P phys_base (offset e);
      mret (ret, Some (size e))
    else mret (NULL, Some 0).

(** [smem_find(id, size_in)].  The local [size] is read only after
    [smem_get_entry] returned a pointer, hence after it was stored. *)
Definition smem_find (id size_in : Z) : SM Z :=
  r ← smem_get_entry id;
  let ptr := fst r in
  if ptr =? NULL then mret NULL
  else
    let size_in := ALIGN size_in 8 in
    match snd r with
    | Some sz =>
        if negb (size_in =? sz) then
          pr_err (Err_find_wrong_size id size_in sz);; mret NULL
        else mret ptr
    | None => mret NULL
    end.

(** [smem_alloc(id, size)] *)
Definition smem_alloc (id size_in : Z) : SM Z := smem_find id size_in.

(** [smem_alloc2(id, size_in)] *)
Definition smem_alloc2 (id size_in : Z) : SM Z :=
  h ← read_heap_info;
  if initialized h =? 0 then pr_err Err_heap_not_initialized;; mret NULL
  else if SMEM_NUM_ITEMS P <=? id then mret NULL
  else
    let size_in := ALIGN size_in 8 in
    e ← read_toc id;
    if negb (allocated e =? 0) then
      if negb (size_in =? size e) then
        pr_err (Err_alloc_wrong_size (size e) size_in);; mret NULL
      else mret (wrap (MSM_SHARED_RAM_BASE P + offset e))
    else if SMEM_FIXED_ITEM_LAST P <? id then
      h ← read_heap_info;
      if size_in <=? heap_remaining h then
        write_toc id (set_offset (free_offset h));;
        write_toc id (set_size size_in);;
        write_toc id (set_allocated 1);;
        write_heap_info (add_free_offset size_in);;
        write_heap_info (sub_heap_remaining size_in);;
        e ← read_toc id;
        mret (wrap (MSM_SHARED_RAM_BASE P + offset e))
      else
        pr_err (Err_not_enough_memory (heap_remaining h) size_in);;
        mret NULL
    else mret NULL.

End Heap.

(** ** Well-formed states *)

(** The table of contents has [SMEM_NUM_ITEMS] slots. *)
Definition toc_sized (P : platform) (s : smem_state) : Prop :=
  length (heap_toc (shared s)) = Z.to_nat (SMEM_NUM_ITEMS P).

(** The heap header holds 32-bit values. *)
Definition heap_typed (s : smem_state) : Prop :=
  u32 (free_offset (heap_info (shared s)))
  /\ u32 (heap_remaining (heap_info (shared s))).

(** A region descriptor holds 32-bit values. *)
Definition area_typed (a : smem_area) : Prop :=
  u32 (phys_addr a) /\ u32 (area_size a) /\ u32 (virt_addr a).

(** ** A small configuration to run the model on *)

Definition demo_platform : platform :=
  {| MSM_SHARED_RAM_BASE := 0xFA300000;
     MSM_SHARED_RAM_SIZE := 0x100000;
     msm_shared_ram_phys := 0x00100000;
     SMEM_NUM_ITEMS := 16;
     SMEM_FIXED_ITEM_LAST := 7;
     BASE_ADDR_MASK := 0xFFFFFFFC |}.

Definition R1 : smem_area :=
  {| phys_addr := 0x1000; area_size := 0x100; virt_addr := 0x9000 |}.

Definition R2 : smem_area :=
  {| phys_addr := 0x2000; area_size := 0x200; virt_addr := 0xA000 |}.

(** The primary shared region of [demo_platform]. *)
Definition R0 : smem_area :=
  {| phys_addr := 0x00100000; area_size := 0x100000; virt_addr := 0xFA300000 |}.

Definition demo_state : smem_state :=
  {| smem_areas := Some [R0; R1; R2];
     shared := {| heap_info := HeapInfo 1 0x400 0x1000;
                  heap_toc := replicate 16 zero_entry |};
     klog := [] |}.

(** [demo_state] after [smem_alloc2(9, 13)]. *)
Definition demo_state_9 : smem_state :=
  snd (smem_alloc2 demo_platform 9 13 demo_state).

(** Unfolds one layer of the state monad. *)
Ltac sm_unfold :=
  unfold mbind, mret, SM_bind, SM_ret, read_heap_info, read_toc, write_toc,
    write_heap_info, read_areas, pr_err in *.

(** ** Auxiliary notions of the statements *)

(** [free_offset + heap_remaining] of the heap header. *)
Definition heap_sum (s : smem_state) : Z :=
  free_offset (heap_info (shared s)) + heap_remaining (heap_info (shared s)).

(** One step from [s] to [s'] keeps the sum, does not decrease
    [free_offset] and does not increase [heap_remaining]. *)
Definition heap_step_ok (s s' : smem_state) : Prop :=
  heap_sum s' = heap_sum s
  /\ free_offset (heap_info (shared s)) <= free_offset (heap_info (shared s'))
  /\ heap_remaining (heap_info (shared s')) <= heap_remaining (heap_info (shared s)).

(** The public entry points, as calls with their arguments. *)
Inductive api_call : Type :=
| Call_get_entry (id : Z)
| Call_find (id size_in : Z)
| Call_alloc (id size_in : Z)
| Call_alloc2 (id size_in : Z)
| Call_virt_to_phys (smem_address : Z).

(** The state after one call. *)
Definition run_call (P : platform) (c : api_call) (s : smem_state) : smem_state :=
  match c with
  | Call_get_entry id => snd (smem_get_entry P id s)
  | Call_find id size_in => snd (smem_find P id size_in s)
  | Call_alloc id size_in => snd (smem_alloc P id size_in s)
  | Call_alloc2 id size_in => snd (smem_alloc2 P id size_in s)
  | Call_virt_to_phys a => snd (smem_virt_to_phys a s)
  end.

(** The state after a sequence of calls, first call first. *)
Definition run_calls (P : platform) (cs : list api_call) (s : smem_state) : smem_state :=
  fold_left (fun st c => run_call P c st) cs s.

(** The virtual base of the region that [smem_phys_to_virt] matches: the
    first area that passes the test of the loop, or the primary region
    while no area is configured. *)
Definition matched_virt_base (P : platform) (areas : option (list smem_area))
    (base off : Z) : option Z :=
  match areas with
  | None =>
      if (msm_shared_ram_phys P <=? base)
         && (wrap (base + off) <? wrap (msm_shared_ram_phys P + MSM_SHARED_RAM_SIZE P))
      then Some (MSM_SHARED_RAM_BASE P) else None
  | Some l =>
      option_map virt_addr (find (fun a => negb (area_skipped a base off)) l)
  end.

(** [addr] lies in the virtual span of area [a]. *)
Definition in_virt_span (a : smem_area) (addr : Z) : Prop :=
  virt_addr a <= addr < virt_addr a + area_size a.

(** A heap header whose cursor is 8 bytes below the top of the 32-bit
    range while 16 bytes are recorded as remaining. *)
Definition top_state : smem_state :=
  {| smem_areas := Some [R0];
     shared := {| heap_info := HeapInfo 1 0xFFFFFFF8 16;
                  heap_toc := replicate 16 zero_entry |};
     klog := [] |}.

(** A descriptor whose virtual span runs past the top of the address
    space. *)
Definition R3 : smem_area :=
  {| phys_addr := 0x3000; area_size := 0x1000; virt_addr := 0xFFFFF800 |}.

Definition high_state : smem_state :=
  {| smem_areas := Some [R1; R2; R3];
     shared := {| heap_info := HeapInfo 1 0x400 0x1000;
                  heap_toc := replicate 16 zero_entry |};
     klog := [] |}.

(** The registry of exactly the two regions [R1] and [R2]. *)
Definition two_regions (sh : smem_shared) (log : list kmsg) : smem_state :=
  {| smem_areas := Some [R1; R2]; shared := sh; klog := log |}.

(** ** Well-formed registries *)

(** [x] lies in the physical span of area [a]. *)
Definition in_phys_span (a : smem_area) (x : Z) : Prop :=
  phys_addr a <= x < phys_addr a + area_size a.

(** A descriptor of 32-bit values whose physical and virtual spans end
    below the top of the address space. *)
Definition area_wf (a : smem_area) : Prop :=
  area_typed a
  /\ phys_addr a + area_size a < WORD_MOD
  /\ virt_addr a + area_size a < WORD_MOD.

(** No physical address lies in two areas. *)
Definition phys_disjoint (l : list smem_area) : Prop :=
  forall a b x, In a l -> In b l -> in_phys_span a x -> in_phys_span b x -> a = b.

(** No virtual address lies in two areas. *)
Definition virt_disjoint (l : list smem_area) : Prop :=
  forall a b x, In a l -> In b l -> in_virt_span a x -> in_virt_span b x -> a = b.

Definition registry_wf (l : list smem_area) : Prop :=
  Forall area_wf l /\ phys_disjoint l /\ virt_disjoint l.

(** The primary region of the platform fits the 32-bit address spaces. *)
Definition platform_typed (P : platform) : Prop :=
  u32 (msm_shared_ram_phys P) /\ u32 (MSM_SHARED_RAM_BASE P)
  /\ 0 <= MSM_SHARED_RAM_SIZE P
  /\ msm_shared_ram_phys P + MSM_SHARED_RAM_SIZE P < WORD_MOD
  /\ MSM_SHARED_RAM_BASE P + MSM_SHARED_RAM_SIZE P < WORD_MOD.

(** The primary region as a descriptor. *)
Definition primary_area (P : platform) : smem_area :=
  {| phys_addr := msm_shared_ram_phys P;
     area_size := MSM_SHARED_RAM_SIZE P;
     virt_addr := MSM_SHARED_RAM_BASE P |}.

(** The primary region is reachable by the translator: through the
    early-boot default, or as an area of a well-formed registry. *)
Definition primary_mapped (P : platform) (s : smem_state) : Prop :=
  platform_typed P
  /\ match smem_areas s with
     | None => True
     | Some l => registry_wf l /\ In (primary_area P) l
     end.

(** Every allocated slot ends at or below the cursor [free_offset]. *)
Definition toc_below_cursor (s : smem_state) : Prop :=
  forall id, allocated (toc_entry s id) <> 0 ->
    offset (toc_entry s id) + size (toc_entry s id)
    <= free_offset (heap_info (shared s)).

(** The conditions under which [smem_alloc2] claims a new slot. *)
Definition fresh_request (P : platform) (s : smem_state) (id size_in : Z) : Prop :=
  initialized (heap_info (shared s)) <> 0
  /\ id < SMEM_NUM_ITEMS P
  /\ SMEM_FIXED_ITEM_LAST P < id
  /\ allocated (toc_entry s id) = 0
  /\ ALIGN size_in 8 <= heap_remaining (heap_info (shared s)).

(** The state after the stores of a fresh allocation of [z] bytes to slot
    [id]. *)
Definition claimed_state (s : smem_state) (id z : Z) : smem_state :=
  State (smem_areas s)
    (Shared
       (sub_heap_remaining z (add_free_offset z (heap_info (shared s))))
       (alter (set_allocated 1) (Z.to_nat id)
          (alter (set_size z) (Z.to_nat id)
             (alter (set_offset (free_offset (heap_info (shared s))))
                (Z.to_nat id) (heap_toc (shared s))))))
    (klog s).

(** A state of early boot: no area is configured yet. *)
Definition boot_state : smem_state :=
  {| smem_areas := None;
     shared := {| heap_info := HeapInfo 1 0x400 0x1000;
                  heap_toc := replicate 16 zero_entry |};
     klog := [] |}.

(** ** Restart notifier and late initialisation *)

(** [struct restart_notifier_block]; [nb.notifier_call] is
    [restart_notifier_cb] in every entry of the table. *)
Record restart_notifier_block : Type := NotifierBlock {
  processor : Z;
  name : string
}.

(** What the restart code does to the outside, in order. *)
Inductive restart_event : Type :=
| Ev_remote_spin_release (pid : Z)
      (* remote_spin_release(&remote_spinlock, pid) *)
| Ev_remote_spin_release_all (pid : Z)
| Ev_do_elf_ramdump (dev nsegments : Z)
| Ev_pr_err_dump (ret : Z)
      (* "%s: unable to dump smem %d" *)
| Ev_create_ramdump_device (dev_name : string)
| Ev_pr_err_create
      (* "%s: Unable to create smem ramdump device." *)
| Ev_register_notifier (nb : restart_notifier_block).
      (* subsys_notif_register_notifier(nb->name, &nb->nb) *)

(** The static [smem_ramdump_dev] and the trace of outside effects. *)
Record restart_state : Type := RestartState {
  smem_ramdump_dev : Z;
  events : list restart_event
}.

Definition RM (A : Type) : Type := restart_state -> A * restart_state.

#[global] Instance RM_ret : MRet RM := fun A (x : A) s => (x, s).
#[global] Instance RM_bind : MBind RM :=
  fun A B (f : A -> RM B) (m : RM A) s => let (x, s') := m s in f x s'.

Definition emit (e : restart_event) : RM unit :=
  fun st => (tt, RestartState (smem_ramdump_dev st) (events st ++ [e])).

Definition read_ramdump_dev : RM Z :=
  fun st => (smem_ramdump_dev st, st).

Definition write_ramdump_dev (v : Z) : RM unit :=
  fun st => (tt, RestartState v (events st)).

Section Restart.
(** Constants of [mach/msm_smem.h], [mach/subsystem_notif.h] and
    [linux/notifier.h], and the macro [IS_ERR_OR_NULL] of [linux/err.h];
    none is among the sources. *)
Context (SMEM_MODEM SMEM_Q6 SMEM_WCNSS SMEM_DSPS : Z).
Context (SUBSYS_AFTER_SHUTDOWN NOTIFY_DONE : Z).
Context (IS_ERR_OR_NULL : Z -> bool).
(** What the collaborators return, given what happened so far:
    [do_elf_ramdump(dev, segments, n)] and
    [create_ramdump_device(name, NULL)]. *)
Context (do_elf_ramdump : list restart_event -> Z -> Z -> Z).
Context (create_ramdump_device : list restart_event -> string -> Z).

Definition call_do_elf_ramdump (dev n : Z) : RM Z :=
  fun st =>
    (do_elf_ramdump (events st) dev n,
     RestartState (smem_ramdump_dev st) (events st ++ [Ev_do_elf_ramdump dev n])).

Definition call_create_ramdump_device (dev_name : string) : RM Z :=
  fun st =>
    (create_ramdump_device (events st) dev_name,
     RestartState (smem_ramdump_dev st)
       (events st ++ [Ev_create_ramdump_device dev_name])).

(** [restart_notifiers[]] *)
Definition restart_notifiers : list restart_notifier_block :=
  [ NotifierBlock SMEM_MODEM "modem";
    NotifierBlock SMEM_Q6 "lpass";
    NotifierBlock SMEM_WCNSS "wcnss";
    NotifierBlock SMEM_DSPS "dsps";
    NotifierBlock SMEM_MODEM "gss";
    NotifierBlock SMEM_Q6 "adsp" ].

(** [restart_notifier_cb(this, code, data)]; [notifier] is the block that
    contains [this]. *)
Definition restart_notifier_cb (notifier : restart_notifier_block) (code : Z) : RM Z :=
  if code =? SUBSYS_AFTER_SHUTDOWN then
    emit (Ev_remote_spin_release (processor notifier));;
    emit (Ev_remote_spin_release_all (processor notifier));;
    dev ← read_ramdump_dev;
    (if negb (dev =? NULL) then
       ret ← call_do_elf_ramdump dev 1;
       if ret <? 0 then emit (Ev_pr_err_dump ret) else mret tt
     else mret tt);;
    mret NOTIFY_DONE
  else mret NOTIFY_DONE.

(** The registration loop of [modem_restart_late_init]. *)
Fixpoint register_notifiers (l : list restart_notifier_block) : RM unit :=
  match l with
  | [] => mret tt
  | nb :: rest => emit (Ev_register_notifier nb);; register_notifiers rest
  end.

(** [modem_restart_late_init()] *)
Definition modem_restart_late_init : RM Z :=
  created ← call_create_ramdump_device "smem";
  write_ramdump_dev created;;
  dev ← read_ramdump_dev;
  (if IS_ERR_OR_NULL dev then
     emit Ev_pr_err_create;; write_ramdump_dev NULL
   else mret tt);;
  register_notifiers restart_notifiers;;
  mret 0.

(** A sequence of notifications, each a block and a code; the results
    of the callbacks are collected. *)
Fixpoint notify_all (calls : list (restart_notifier_block * Z)) : RM (list Z) :=
  match calls with
  | [] => mret []
  | c :: rest =>
      r ← restart_notifier_cb (fst c) (snd c);
      rs ← notify_all rest;
      mret (r :: rs)
  end.

End Restart.

(** The processors whose hold on [remote_spinlock] a trace releases, in
    order. *)
Definition released_pids (evs : list restart_event) : list Z :=
  omap (fun e => match e with
                 | Ev_remote_spin_release pid => Some pid
                 | _ => None
                 end) evs.

(** The notifications of a sequence that carry code [shutdown]. *)
Definition shutdown_calls (shutdown : Z)
    (calls : list (restart_notifier_block * Z)) : list (restart_notifier_block * Z) :=
  filter (fun c => snd c = shutdown) calls.

(** Collaborators to run the restart code with: [IS_ERR_OR_NULL] as in
    [linux/err.h] on a 32-bit pointer, a ramdump that fails with -5, and
    a device creation that fails with [ERR_PTR(-12)] or yields a device. *)
Definition demo_IS_ERR_OR_NULL (p : Z) : bool :=
  (p =? 0) || (WORD_MOD - 4095 <=? p).

Definition demo_do_elf_ramdump (_ : list restart_event) (_ _ : Z) : Z := -5.

Definition demo_create_fails (_ : list restart_event) (_ : string) : Z :=
  WORD_MOD - 12.

Definition demo_create_works (_ : list restart_event) (_ : string) : Z :=
  0xC1234000.

Definition demo_restart_state : restart_state :=
  {| smem_ramdump_dev := NULL; events := [] |}.

(** Unfolds one layer of the restart monad. *)
Ltac rm_unfold :=
  unfold mbind, mret, RM_bind, RM_ret, emit, read_ramdump_dev,
    write_ramdump_dev, call_do_elf_ramdump, call_create_ramdump_device in *.

(** An event is a ramdump request. *)
Definition is_ramdump (e : restart_event) : bool :=
  match e with
  | Ev_do_elf_ramdump _ _ => true
  | _ => false
  end.

(** ** Registries at the edge *)





(** * Properties *)

Example align8_0 : ALIGN 0 8 = 0.
Proof. reflexivity. Qed.

Example align8_1 : ALIGN 1 8 = 8.
Proof. reflexivity. Qed.

Example align8_8 : ALIGN 8 8 = 8.
Proof. reflexivity. Qed.

Example align8_9 : ALIGN 9 8 = 16.
Proof. reflexivity. Qed.

(** ** Basic facts *)

Lemma WORD_MOD_eq : WORD_MOD = 4294967296.
Proof. reflexivity. Qed.

Lemma wrap_small (x : Z) : u32 x -> wrap x = x.
Proof. unfold u32, wrap. intros H. apply Z.mod_small. exact H. Qed.

Lemma wrap_u32 (x : Z) : u32 (wrap x).
Proof.
  unfold u32, wrap. apply Z.mod_pos_bound. rewrite WORD_MOD_eq. lia.
Qed.

Lemma wrap_le (x : Z) : 0 <= x -> wrap x <= x.
Proof.
  intros H. unfold wrap. apply Z.mod_le; [exact H|].
  rewrite WORD_MOD_eq. lia.
Qed.

Lemma OVERFLOW_ADD_UNSIGNED_spec (a b : Z) :
  u32 a -> OVERFLOW_ADD_UNSIGNED a b = (WORD_MOD <=? a + b).
Proof.
  intros Ha. unfold OVERFLOW_ADD_UNSIGNED.
  rewrite wrap_small by (unfold u32 in *; lia).
  destruct (Z.ltb_spec (WORD_MOD - 1 - a) b), (Z.leb_spec WORD_MOD (a + b));
    (reflexivity || lia).
Qed.

Lemma land_le_l (x y : Z) : 0 <= x -> Z.land x y <= x.
Proof.
  intros Hx. pose proof (Z.sub_land_same_l x y) as E.
  assert (0 <= Z.land x (Z.lnot y)) by (apply Z.land_nonneg; left; exact Hx).
  lia.
Qed.

Lemma ALIGN_u32 (x a : Z) : u32 (ALIGN x a).
Proof.
  unfold ALIGN.
  destruct (wrap_u32 (x + (a - 1))) as [H1 H2].
  split.
  - apply Z.land_nonneg. left. exact H1.
  - eapply Z.le_lt_trans; [apply land_le_l; exact H1 | exact H2].
Qed.

(** The translator reads the registry and may print; it leaves the
    registry and the shared memory alone. *)
Lemma phys_to_virt_scan_frame (l : list smem_area) (base off : Z) (s : smem_state) :
  smem_areas (snd (phys_to_virt_scan l base off s)) = smem_areas s
  /\ shared (snd (phys_to_virt_scan l base off s)) = shared s.
Proof.
  induction l as [|a l IH]; simpl.
  - split; reflexivity.
  - destruct (area_skipped a base off); [exact IH|].
    destruct (OVERFLOW_ADD_UNSIGNED (virt_addr a) off); split; reflexivity.
Qed.

Lemma smem_phys_to_virt_frame (P : platform) (base off : Z) (s : smem_state) :
  smem_areas (snd (smem_phys_to_virt P base off s)) = smem_areas s
  /\ shared (snd (smem_phys_to_virt P base off s)) = shared s.
Proof.
  unfold smem_phys_to_virt.
  destruct (OVERFLOW_ADD_UNSIGNED base off); [split; reflexivity|].
  sm_unfold. destruct (smem_areas s) as [l|] eqn:E.
  - destruct (phys_to_virt_scan_frame l base off s) as [H1 H2].
    rewrite H1, H2. split; [exact E | reflexivity].
  - destruct (_ && _); [|split; [exact E | reflexivity]].
    destruct (OVERFLOW_ADD_UNSIGNED _ off); simpl; split;
      (exact E || reflexivity).
Qed.

Lemma smem_get_entry_frame (P : platform) (id : Z) (s : smem_state) :
  smem_areas (snd (smem_get_entry P id s)) = smem_areas s
  /\ shared (snd (smem_get_entry P id s)) = shared s.
Proof.
  unfold smem_get_entry.
  destruct (SMEM_NUM_ITEMS P <=? id); [split; reflexivity|].
  sm_unfold.
  destruct (negb (allocated (toc_entry s id) =? 0)); [|split; reflexivity].
  match goal with
  | |- context [smem_phys_to_virt P ?b ?o s] =>
      pose proof (smem_phys_to_virt_frame P b o s) as HF;
      destruct (smem_phys_to_virt P b o s) as [r s']
  end.
  exact HF.
Qed.

Lemma smem_find_frame (P : platform) (id size_in : Z) (s : smem_state) :
  smem_areas (snd (smem_find P id size_in s)) = smem_areas s
  /\ shared (snd (smem_find P id size_in s)) = shared s.
Proof.
  unfold smem_find. sm_unfold.
  pose proof (smem_get_entry_frame P id s) as HF.
  destruct (smem_get_entry P id s) as [[ptr sz] s']. simpl in *.
  destruct (ptr =? NULL); [exact HF|].
  destruct sz as [sz|]; [|exact HF].
  destruct (negb (ALIGN size_in 8 =? sz)); exact HF.
Qed.

(** ** Lookup of entries that are not allocated *)

Lemma smem_get_entry_unallocated (P : platform) (s : smem_state) (id : Z) :
  id < SMEM_NUM_ITEMS P ->
  allocated (toc_entry s id) = 0 ->
  smem_get_entry P id s = ((NULL, Some 0), s).
Proof.
  intros Hid Hun. unfold smem_get_entry.
  destruct (Z.leb_spec (SMEM_NUM_ITEMS P) id) as [Hge|_]; [lia|].
  sm_unfold. rewrite Hun. reflexivity.
Qed.

(** C7: for an identifier within table capacity whose slot is not
    allocated, [smem_find] returns [NULL] (the failure result) for every
    size, and [smem_get_entry] returns [NULL] and stores 0 to [*size];
    neither changes the state. *)
Theorem smem_find_unallocated (P : platform) (s : smem_state) (id : Z) :
  0 <= id < SMEM_NUM_ITEMS P ->
  allocated (toc_entry s id) = 0 ->
  (forall size_in, smem_find P id size_in s = (NULL, s))
  /\ smem_get_entry P id s = ((NULL, Some 0), s).
Proof.
  intros [_ Hid] Hun.
  pose proof (smem_get_entry_unallocated P s id Hid Hun) as HG.
  split; [|exact HG].
  intros size_in. unfold smem_find. sm_unfold. rewrite HG. reflexivity.
Qed.

Lemma smem_find_unallocated_witness :
  smem_find demo_platform 9 13 demo_state = (NULL, demo_state)
  /\ smem_get_entry demo_platform 9 demo_state = ((NULL, Some 0), demo_state).
Proof.
  destruct (smem_find_unallocated demo_platform demo_state 9) as [H1 H2].
  - simpl. lia.
  - reflexivity.
  - split; [apply H1 | exact H2].
Defined.

(** C10: [smem_alloc] is [smem_find]: it returns the same result, and it
    leaves the shared root structure (heap header and table of contents)
    and the region registry as they were. *)
Theorem smem_alloc_is_smem_find (P : platform) (id size_in : Z) (s : smem_state) :
  smem_alloc P id size_in s = smem_find P id size_in s
  /\ shared (snd (smem_alloc P id size_in s)) = shared s
  /\ smem_areas (snd (smem_alloc P id size_in s)) = smem_areas s.
Proof.
  split; [reflexivity|].
  unfold smem_alloc.
  destruct (smem_find_frame P id size_in s) as [H1 H2].
  split; [exact H2 | exact H1].
Qed.

(** ** Refused allocations *)

(** C3: for an unallocated identifier of the dynamic range, when the
    aligned size exceeds [heap_remaining], [smem_alloc2] returns [NULL]
    and the shared root structure (the slot of [id], [free_offset],
    [heap_remaining]) is as before; on an initialized heap the failure is
    the one reported as "not enough memory". *)
Theorem smem_alloc2_out_of_memory (P : platform) (s : smem_state) (id size_in : Z) :
  SMEM_FIXED_ITEM_LAST P < id < SMEM_NUM_ITEMS P ->
  allocated (toc_entry s id) = 0 ->
  heap_remaining (heap_info (shared s)) < ALIGN size_in 8 ->
  fst (smem_alloc2 P id size_in s) = NULL
  /\ shared (snd (smem_alloc2 P id size_in s)) = shared s
  /\ smem_areas (snd (smem_alloc2 P id size_in s)) = smem_areas s
  /\ (initialized (heap_info (shared s)) <> 0 ->
      klog (snd (smem_alloc2 P id size_in s)) =
      klog s ++ [Err_not_enough_memory
                   (heap_remaining (heap_info (shared s))) (ALIGN size_in 8)]).
Proof.
  intros [Hlo Hhi] Hun Hrem. unfold smem_alloc2. sm_unfold.
  destruct (Z.eqb_spec (initialized (heap_info (shared s))) 0) as [Hi|Hi].
  - simpl. repeat split; try reflexivity. intros Hne. contradiction.
  - destruct (Z.leb_spec (SMEM_NUM_ITEMS P) id) as [Hge|_]; [lia|].
    rewrite Hun. simpl.
    destruct (Z.ltb_spec (SMEM_FIXED_ITEM_LAST P) id) as [_|Hle]; [|lia].
    destruct (Z.leb_spec (ALIGN size_in 8) (heap_remaining (heap_info (shared s))))
      as [Hfit|_]; [lia|].
    simpl. repeat split; reflexivity.
Qed.

Lemma smem_alloc2_out_of_memory_witness :
  fst (smem_alloc2 demo_platform 9 0x2000 demo_state) = NULL
  /\ shared (snd (smem_alloc2 demo_platform 9 0x2000 demo_state)) = shared demo_state
  /\ klog (snd (smem_alloc2 demo_platform 9 0x2000 demo_state)) =
     [Err_not_enough_memory 0x1000 0x2000].
Proof.
  destruct (smem_alloc2_out_of_memory demo_platform demo_state 9 0x2000)
    as (H1 & H2 & _ & H4).
  - simpl. lia.
  - reflexivity.
  - vm_compute. reflexivity.
  - split; [exact H1 | split; [exact H2 | apply H4; vm_compute; discriminate]].
Defined.

(** C8: for an unallocated identifier of the fixed range
    ([id <= SMEM_FIXED_ITEM_LAST]), [smem_alloc2] returns [NULL] for every
    size, the slot stays unallocated, and the table of contents and the
    heap header are as before. *)
Theorem smem_alloc2_fixed_refused (P : platform) (s : smem_state) (id size_in : Z) :
  id <= SMEM_FIXED_ITEM_LAST P ->
  allocated (toc_entry s id) = 0 ->
  fst (smem_alloc2 P id size_in s) = NULL
  /\ allocated (toc_entry (snd (smem_alloc2 P id size_in s)) id) = 0
  /\ shared (snd (smem_alloc2 P id size_in s)) = shared s.
Proof.
  intros Hfix Hun.
  assert (fst (smem_alloc2 P id size_in s) = NULL
          /\ shared (snd (smem_alloc2 P id size_in s)) = shared s) as [H1 H2].
  { unfold smem_alloc2. sm_unfold.
    destruct (initialized (heap_info (shared s)) =? 0);
      [split; reflexivity|].
    destruct (SMEM_NUM_ITEMS P <=? id); [split; reflexivity|].
    rewrite Hun. simpl.
    destruct (Z.ltb_spec (SMEM_FIXED_ITEM_LAST P) id) as [Hlt|_]; [lia|].
    split; reflexivity. }
  split; [exact H1|]. split; [|exact H2].
  unfold toc_entry in *. rewrite H2. exact Hun.
Qed.

Lemma smem_alloc2_fixed_refused_witness :
  fst (smem_alloc2 demo_platform 3 13 demo_state) = NULL
  /\ allocated (toc_entry (snd (smem_alloc2 demo_platform 3 13 demo_state)) 3) = 0
  /\ shared (snd (smem_alloc2 demo_platform 3 13 demo_state)) = shared demo_state.
Proof.
  apply (smem_alloc2_fixed_refused demo_platform demo_state 3 13).
  - simpl. lia.
  - reflexivity.
Defined.

(** ** Allocation *)

(** The slot of [id] after the three stores of a fresh allocation. *)
Lemma toc_entry_claimed (s : smem_state) (id fo sz : Z) (h : smem_heap_info) (log : list kmsg) :
  (Z.to_nat id < length (heap_toc (shared s)))%nat ->
  toc_entry
    (State (smem_areas s)
       (Shared h
          (alter (set_allocated 1) (Z.to_nat id)
             (alter (set_size sz) (Z.to_nat id)
                (alter (set_offset fo) (Z.to_nat id) (heap_toc (shared s))))))
       log) id
  = HeapEntry 1 fo sz (reserved (toc_entry s id)).
Proof.
  intros Hlt. unfold toc_entry. simpl.
  rewrite !list_lookup_alter_eq.
  destruct (lookup_lt_is_Some_2 _ _ Hlt) as [e He].
  rewrite He. reflexivity.
Qed.

Lemma toc_index_in_range (P : platform) (s : smem_state) (id : Z) :
  toc_sized P s -> 0 <= id < SMEM_NUM_ITEMS P ->
  (Z.to_nat id < length (heap_toc (shared s)))%nat.
Proof. unfold toc_sized. intros -> H. lia. Qed.

(** What a call of [smem_alloc2] that returned a pointer leaves behind. *)
Lemma smem_alloc2_success (P : platform) (s s1 : smem_state) (id size_in r : Z) :
  toc_sized P s -> 0 <= id ->
  smem_alloc2 P id size_in s = (r, s1) -> r <> NULL ->
  initialized (heap_info (shared s1)) <> 0
  /\ id < SMEM_NUM_ITEMS P
  /\ allocated (toc_entry s1 id) <> 0
  /\ size (toc_entry s1 id) = ALIGN size_in 8
  /\ r = wrap (MSM_SHARED_RAM_BASE P + offset (toc_entry s1 id)).
Proof.
  intros Hsz Hid Hcall Hr. unfold smem_alloc2 in Hcall. sm_unfold.
  destruct (Z.eqb_spec (initialized (heap_info (shared s))) 0) as [Hi|Hi].
  { simpl in Hcall. injection Hcall as <- <-. contradiction. }
  destruct (Z.leb_spec (SMEM_NUM_ITEMS P) id) as [Hge|Hlt].
  { injection Hcall as <- <-. contradiction. }
  destruct (Z.eqb_spec (allocated (toc_entry s id)) 0) as [Hal|Hal];
    simpl in Hcall.
  - destruct (SMEM_FIXED_ITEM_LAST P <? id).
    2:{ injection Hcall as <- <-. contradiction. }
    destruct (ALIGN size_in 8 <=? heap_remaining (heap_info (shared s))).
    2:{ simpl in Hcall. injection Hcall as <- <-. contradiction. }
    simpl in Hcall.
    pose proof (toc_index_in_range P s id Hsz (conj Hid Hlt)) as Hin.
    rewrite toc_entry_claimed in Hcall by exact Hin.
    injection Hcall as <- <-.
    rewrite toc_entry_claimed by exact Hin. simpl.
    repeat split; try assumption; try reflexivity. discriminate.
  - destruct (Z.eqb_spec (ALIGN size_in 8) (size (toc_entry s id))) as [Hs|Hs];
      simpl in Hcall; injection Hcall as <- <-.
    + repeat split; try assumption; try reflexivity. symmetry. exact Hs.
    + contradiction.
Qed.

(** [smem_alloc2] on a slot that is already allocated. *)
Lemma smem_alloc2_allocated (P : platform) (s : smem_state) (id size_in : Z) :
  initialized (heap_info (shared s)) <> 0 ->
  id < SMEM_NUM_ITEMS P ->
  allocated (toc_entry s id) <> 0 ->
  smem_alloc2 P id size_in s =
  if ALIGN size_in 8 =? size (toc_entry s id)
  then (wrap (MSM_SHARED_RAM_BASE P + offset (toc_entry s id)), s)
  else (NULL,
        State (smem_areas s) (shared s)
          (klog s ++ [Err_alloc_wrong_size (size (toc_entry s id)) (ALIGN size_in 8)])).
Proof.
  intros Hi Hid Hal. unfold smem_alloc2. sm_unfold.
  destruct (Z.eqb_spec (initialized (heap_info (shared s))) 0) as [E|_];
    [contradiction|].
  destruct (Z.leb_spec (SMEM_NUM_ITEMS P) id) as [Hge|_]; [lia|].
  destruct (Z.eqb_spec (allocated (toc_entry s id)) 0) as [E|_];
    [contradiction|].
  simpl. destruct (ALIGN size_in 8 =? size (toc_entry s id)); reflexivity.
Qed.

(** C2: if [smem_alloc2(id, size)] returned a pointer, the same call made
    again returns the same pointer and leaves [free_offset] and
    [heap_remaining] (indeed the whole state) unchanged. *)
Theorem smem_alloc2_idempotent (P : platform) (s s1 : smem_state) (id size_in r : Z) :
  toc_sized P s -> 0 <= id ->
  smem_alloc2 P id size_in s = (r, s1) -> r <> NULL ->
  fst (smem_alloc2 P id size_in s1) = r
  /\ free_offset (heap_info (shared (snd (smem_alloc2 P id size_in s1))))
     = free_offset (heap_info (shared s1))
  /\ heap_remaining (heap_info (shared (snd (smem_alloc2 P id size_in s1))))
     = heap_remaining (heap_info (shared s1))
  /\ snd (smem_alloc2 P id size_in s1) = s1.
Proof.
  intros Hsz Hid Hcall Hr.
  destruct (smem_alloc2_success P s s1 id size_in r Hsz Hid Hcall Hr)
    as (Hi & Hlt & Hal & Hs & ->).
  rewrite (smem_alloc2_allocated P s1 id size_in Hi Hlt Hal).
  rewrite Hs, Z.eqb_refl. simpl. repeat split; reflexivity.
Qed.

Lemma smem_alloc2_idempotent_witness :
  fst (smem_alloc2 demo_platform 9 13 demo_state_9) = 0xFA300400
  /\ free_offset (heap_info (shared (snd (smem_alloc2 demo_platform 9 13 demo_state_9))))
     = free_offset (heap_info (shared demo_state_9))
  /\ heap_remaining (heap_info (shared (snd (smem_alloc2 demo_platform 9 13 demo_state_9))))
     = heap_remaining (heap_info (shared demo_state_9))
  /\ snd (smem_alloc2 demo_platform 9 13 demo_state_9) = demo_state_9.
Proof.
  apply (smem_alloc2_idempotent demo_platform demo_state demo_state_9 9 13).
  - reflexivity.
  - lia.
  - reflexivity.
  - discriminate.
Defined.

(** C4: after [smem_alloc2(id, size1)] returned a pointer, a call
    [smem_alloc2(id, size2)] with a different aligned size returns [NULL],
    reports the wrong size, and leaves the slot (its offset and size) and
    the whole shared root structure as they were. *)
Theorem smem_alloc2_size_mismatch (P : platform) (s s1 : smem_state) (id size1 size2 r : Z) :
  toc_sized P s -> 0 <= id ->
  ALIGN size1 8 <> ALIGN size2 8 ->
  smem_alloc2 P id size1 s = (r, s1) -> r <> NULL ->
  fst (smem_alloc2 P id size2 s1) = NULL
  /\ toc_entry (snd (smem_alloc2 P id size2 s1)) id = toc_entry s1 id
  /\ shared (snd (smem_alloc2 P id size2 s1)) = shared s1
  /\ klog (snd (smem_alloc2 P id size2 s1)) =
     klog s1 ++ [Err_alloc_wrong_size (ALIGN size1 8) (ALIGN size2 8)].
Proof.
  intros Hsz Hid Hne Hcall Hr.
  destruct (smem_alloc2_success P s s1 id size1 r Hsz Hid Hcall Hr)
    as (Hi & Hlt & Hal & Hs & _).
  rewrite (smem_alloc2_allocated P s1 id size2 Hi Hlt Hal).
  rewrite Hs.
  destruct (Z.eqb_spec (ALIGN size2 8) (ALIGN size1 8)) as [E|_];
    [symmetry in E; contradiction|].
  simpl. repeat split; reflexivity.
Qed.

Lemma smem_alloc2_size_mismatch_witness :
  fst (smem_alloc2 demo_platform 9 20 demo_state_9) = NULL
  /\ toc_entry (snd (smem_alloc2 demo_platform 9 20 demo_state_9)) 9
     = toc_entry demo_state_9 9
  /\ shared (snd (smem_alloc2 demo_platform 9 20 demo_state_9)) = shared demo_state_9
  /\ klog (snd (smem_alloc2 demo_platform 9 20 demo_state_9)) =
     klog demo_state_9 ++ [Err_alloc_wrong_size (ALIGN 13 8) (ALIGN 20 8)].
Proof.
  apply (smem_alloc2_size_mismatch demo_platform demo_state demo_state_9 9 13 20
           0xFA300400).
  - reflexivity.
  - lia.
  - vm_compute. discriminate.
  - reflexivity.
  - discriminate.
Defined.

(** ** The heap header under the public operations *)

Lemma heap_step_ok_same (s s' : smem_state) :
  shared s' = shared s -> heap_step_ok s s'.
Proof.
  intros E. unfold heap_step_ok, heap_sum. rewrite E. lia.
Qed.

(** The header after [smem_alloc2]: either untouched, or advanced by the
    aligned size, which then fitted [heap_remaining]. *)
Lemma smem_alloc2_header (P : platform) (s : smem_state) (id size_in : Z) :
  heap_info (shared (snd (smem_alloc2 P id size_in s))) = heap_info (shared s)
  \/ (ALIGN size_in 8 <= heap_remaining (heap_info (shared s))
      /\ heap_info (shared (snd (smem_alloc2 P id size_in s))) =
         sub_heap_remaining (ALIGN size_in 8)
           (add_free_offset (ALIGN size_in 8) (heap_info (shared s)))).
Proof.
  unfold smem_alloc2. sm_unfold.
  destruct (initialized (heap_info (shared s)) =? 0); [left; reflexivity|].
  destruct (SMEM_NUM_ITEMS P <=? id); [left; reflexivity|].
  destruct (negb (allocated (toc_entry s id) =? 0)).
  { destruct (negb (ALIGN size_in 8 =? size (toc_entry s id)));
      left; reflexivity. }
  destruct (SMEM_FIXED_ITEM_LAST P <? id); [|left; reflexivity].
  destruct (Z.leb_spec (ALIGN size_in 8) (heap_remaining (heap_info (shared s))))
    as [Hfit|_]; [|left; reflexivity].
  right. split; [exact Hfit | reflexivity].
Qed.

(** One [smem_alloc2] from a header with 32-bit fields. *)
Lemma smem_alloc2_heap_step (P : platform) (s : smem_state) (id size_in : Z) :
  heap_typed s ->
  let sa := snd (smem_alloc2 P id size_in s) in
  (heap_remaining (heap_info (shared sa)) <= heap_remaining (heap_info (shared s))
   /\ wrap (heap_sum sa) = wrap (heap_sum s))
  /\ (heap_sum s < WORD_MOD ->
      heap_step_ok s sa /\ heap_typed sa /\ heap_sum sa < WORD_MOD).
Proof.
  intros [[Hf0 Hf1] [Hr0 Hr1]] sa.
  subst sa. unfold heap_step_ok, heap_typed, heap_sum.
  destruct (smem_alloc2_header P s id size_in) as [E|[Hfit E]]; rewrite E.
  - split; [split; [lia | reflexivity]|].
    intros Hsum. unfold u32. lia.
  - destruct (ALIGN_u32 size_in 8) as [Ha0 Ha1].
    set (z := ALIGN size_in 8) in *.
    unfold sub_heap_remaining, add_free_offset. simpl.
    assert (Hsub : wrap (heap_remaining (heap_info (shared s)) - z)
                   = heap_remaining (heap_info (shared s)) - z)
      by (apply wrap_small; unfold u32; lia).
    rewrite Hsub. split; [split; [lia|]|].
    + unfold wrap. rewrite Z.add_mod_idemp_l by (rewrite WORD_MOD_eq; lia).
      f_equal. lia.
    + intros Hsum.
      assert (Hadd : wrap (free_offset (heap_info (shared s)) + z)
                     = free_offset (heap_info (shared s)) + z)
        by (apply wrap_small; unfold u32; lia).
      rewrite Hadd. unfold u32. lia.
Qed.

(** C6, as far as the code goes.  From every state with 32-bit header
    fields, [smem_find], [smem_get_entry] and [smem_alloc2] never increase
    [heap_remaining] and keep [free_offset + heap_remaining] modulo 2^32;
    when the sum fits 32 bits ([heap_sum s < 2^32]) they keep the sum
    itself and never decrease [free_offset], and [smem_alloc2] hands on a
    header of the same kind. *)
Theorem heap_sum_preserved (P : platform) (s : smem_state) (id size_in : Z) :
  heap_typed s ->
  let sf := snd (smem_find P id size_in s) in
  let sg := snd (smem_get_entry P id s) in
  let sa := snd (smem_alloc2 P id size_in s) in
  (heap_step_ok s sf /\ heap_step_ok s sg)
  /\ (heap_remaining (heap_info (shared sa)) <= heap_remaining (heap_info (shared s))
      /\ wrap (heap_sum sa) = wrap (heap_sum s))
  /\ (heap_sum s < WORD_MOD ->
      heap_step_ok s sa /\ heap_typed sa /\ heap_sum sa < WORD_MOD).
Proof.
  intros Hty sf sg sa. split; [split|].
  - apply heap_step_ok_same, smem_find_frame.
  - apply heap_step_ok_same, smem_get_entry_frame.
  - exact (smem_alloc2_heap_step P s id size_in Hty).
Qed.

Lemma heap_sum_preserved_witness :
  heap_step_ok demo_state (snd (smem_alloc2 demo_platform 9 13 demo_state))
  /\ heap_sum (snd (smem_alloc2 demo_platform 9 13 demo_state)) = 0x1400.
Proof.
  destruct (heap_sum_preserved demo_platform demo_state 9 13) as (_ & _ & H).
  - unfold heap_typed, u32. simpl. rewrite WORD_MOD_eq. lia.
  - destruct H as (H1 & _ & _).
    + vm_compute. reflexivity.
    + split; [exact H1 | reflexivity].
Defined.

(** C6 as stated fails at [top_state]: the header is initialized and holds
    32-bit values, and [smem_alloc2(9, 8)] succeeds, yet [free_offset]
    wraps from 0xFFFFFFF8 to 0, so it decreases and the sum drops from
    0x100000008 to 8. *)
Lemma heap_sum_not_preserved_at_top :
  initialized (heap_info (shared top_state)) <> 0
  /\ heap_typed top_state
  /\ toc_sized demo_platform top_state
  /\ fst (smem_alloc2 demo_platform 9 8 top_state) <> NULL
  /\ free_offset (heap_info (shared (snd (smem_alloc2 demo_platform 9 8 top_state))))
     < free_offset (heap_info (shared top_state))
  /\ heap_sum (snd (smem_alloc2 demo_platform 9 8 top_state)) <> heap_sum top_state
  /\ ~ heap_step_ok top_state (snd (smem_alloc2 demo_platform 9 8 top_state)).
Proof.
  split; [simpl; discriminate|].
  split; [unfold heap_typed, u32; simpl; rewrite WORD_MOD_eq; lia|].
  split; [reflexivity|].
  split; [vm_compute; discriminate|].
  split; [vm_compute; reflexivity|].
  split; [vm_compute; discriminate|].
  intros (Hsum & _). vm_compute in Hsum. discriminate.
Qed.

(** ** Physical to virtual translation *)

(** C1 on the code.  With exactly [R1] and [R2] registered,
    [smem_phys_to_virt(0x1050, 0x10)] returns [0x9010], the virtual base of
    [R1] plus the offset, not [0x9060]; [smem_phys_to_virt(0x1050, 0x200)]
    returns [NULL].  Neither call changes the state. *)
Theorem smem_phys_to_virt_two_regions (P : platform) (sh : smem_shared) (log : list kmsg) :
  smem_phys_to_virt P 0x1050 0x10 (two_regions sh log)
    = (0x9010, two_regions sh log)
  /\ fst (smem_phys_to_virt P 0x1050 0x10 (two_regions sh log)) <> 0x9060
  /\ smem_phys_to_virt P 0x1050 0x200 (two_regions sh log)
    = (NULL, two_regions sh log).
Proof.
  split; [reflexivity|]. split; [|reflexivity].
  simpl. discriminate.
Qed.

(** The same displacement is lost on the way through [smem_get_entry]:
    an allocated slot whose [reserved] field names the base [0x1050]
    inside [R1] resolves to [0x9010]. *)
Lemma smem_get_entry_inner_base :
  let sh := {| heap_info := HeapInfo 1 0x400 0x1000;
               heap_toc := <[9%nat := HeapEntry 1 0x10 16 0x1050]>
                             (replicate 16 zero_entry) |} in
  fst (smem_get_entry demo_platform 9 (two_regions sh [])) = (0x9010, Some 16).
Proof. reflexivity. Qed.

(** The result of the loop in terms of the first area it does not skip. *)
Lemma phys_to_virt_scan_result (l : list smem_area) (base off : Z) (s : smem_state) :
  0 <= off -> Forall area_typed l ->
  fst (phys_to_virt_scan l base off s) =
  match find (fun a => negb (area_skipped a base off)) l with
  | Some a => if WORD_MOD <=? virt_addr a + off then NULL else virt_addr a + off
  | None => NULL
  end.
Proof.
  intros Hoff. induction 1 as [|a l Ha _ IH]; simpl; [reflexivity|].
  destruct (area_skipped a base off); simpl; [exact IH|].
  destruct Ha as (_ & _ & Hv).
  rewrite OVERFLOW_ADD_UNSIGNED_spec by exact Hv.
  destruct (Z.leb_spec WORD_MOD (virt_addr a + off)) as [Hge|Hlt].
  - reflexivity.
  - simpl. apply wrap_small. unfold u32 in *. lia.
Qed.

(** [smem_phys_to_virt] in terms of the matched region. *)
Lemma smem_phys_to_virt_result (P : platform) (s : smem_state) (base off : Z) :
  u32 base -> u32 off -> u32 (MSM_SHARED_RAM_BASE P) ->
  (forall l, smem_areas s = Some l -> Forall area_typed l) ->
  fst (smem_phys_to_virt P base off s) =
  if WORD_MOD <=? base + off then NULL
  else match matched_virt_base P (smem_areas s) base off with
       | Some v => if WORD_MOD <=? v + off then NULL else v + off
       | None => NULL
       end.
Proof.
  intros Hb Ho HB Hty. unfold smem_phys_to_virt.
  rewrite OVERFLOW_ADD_UNSIGNED_spec by exact Hb.
  destruct (WORD_MOD <=? base + off); [reflexivity|].
  sm_unfold. unfold matched_virt_base.
  destruct (smem_areas s) as [l|] eqn:E.
  - rewrite phys_to_virt_scan_result by (apply Hty || apply Ho; reflexivity).
    destruct (find _ l); reflexivity.
  - destruct (_ && _); [|reflexivity].
    rewrite OVERFLOW_ADD_UNSIGNED_spec by exact HB.
    destruct (Z.leb_spec WORD_MOD (MSM_SHARED_RAM_BASE P + off)); simpl.
    + reflexivity.
    + apply wrap_small. unfold u32 in *. lia.
Qed.

(** C5: [smem_phys_to_virt] returns [NULL] whenever [base + offset]
    exceeds the 32-bit physical address type, and whenever the virtual
    base of the matched region plus [offset] exceeds the pointer type; a
    pointer it returns is the exact sum of that virtual base and the
    offset, and both sums are below 2^32. *)
Theorem smem_phys_to_virt_no_wrap (P : platform) (s : smem_state) (base off : Z) :
  u32 base -> u32 off -> u32 (MSM_SHARED_RAM_BASE P) ->
  (forall l, smem_areas s = Some l -> Forall area_typed l) ->
  (WORD_MOD <= base + off -> fst (smem_phys_to_virt P base off s) = NULL)
  /\ (forall v, matched_virt_base P (smem_areas s) base off = Some v ->
       WORD_MOD <= v + off -> fst (smem_phys_to_virt P base off s) = NULL)
  /\ (fst (smem_phys_to_virt P base off s) <> NULL ->
      base + off < WORD_MOD
      /\ exists v, matched_virt_base P (smem_areas s) base off = Some v
                   /\ v + off < WORD_MOD
                   /\ fst (smem_phys_to_virt P base off s) = v + off).
Proof.
  intros Hb Ho HB Hty.
  rewrite (smem_phys_to_virt_result P s base off Hb Ho HB Hty).
  destruct (Z.leb_spec WORD_MOD (base + off)) as [Hge|Hlt].
  - split; [reflexivity|]. split; [reflexivity|]. intros H. contradiction.
  - split; [lia|].
    destruct (matched_virt_base P (smem_areas s) base off) as [v|].
    + destruct (Z.leb_spec WORD_MOD (v + off)) as [Hvge|Hvlt].
      * split; [reflexivity|]. intros H. contradiction.
      * split; [intros v' [= <-] H'; lia|].
        intros _. split; [exact Hlt|]. exists v. auto.
    + split; [discriminate|]. intros H. contradiction.
Qed.

Lemma high_state_typed (l : list smem_area) :
  smem_areas high_state = Some l -> Forall area_typed l.
Proof.
  intros [= <-].
  repeat constructor; unfold u32; simpl; rewrite ?WORD_MOD_eq; lia.
Defined.

Lemma smem_phys_to_virt_no_wrap_witness :
  (exists v, matched_virt_base demo_platform (smem_areas high_state) 0x1000 0x60 = Some v
             /\ v + 0x60 < WORD_MOD
             /\ fst (smem_phys_to_virt demo_platform 0x1000 0x60 high_state) = v + 0x60)
  /\ fst (smem_phys_to_virt demo_platform 0x3000 0x900 high_state) = NULL.
Proof.
  split.
  - destruct (smem_phys_to_virt_no_wrap demo_platform high_state 0x1000 0x60)
      as (_ & _ & H).
    + unfold u32. rewrite WORD_MOD_eq. lia.
    + unfold u32. rewrite WORD_MOD_eq. lia.
    + unfold u32. simpl. rewrite WORD_MOD_eq. lia.
    + exact high_state_typed.
    + apply H. vm_compute. discriminate.
  - destruct (smem_phys_to_virt_no_wrap demo_platform high_state 0x3000 0x900)
      as (_ & H & _).
    + unfold u32. rewrite WORD_MOD_eq. lia.
    + unfold u32. rewrite WORD_MOD_eq. lia.
    + unfold u32. simpl. rewrite WORD_MOD_eq. lia.
    + exact high_state_typed.
    + apply (H 0xFFFFF800); [reflexivity|]. rewrite WORD_MOD_eq. lia.
Defined.

(** The overflow of the virtual sum is reported in the log. *)
Example smem_phys_to_virt_high :
  smem_phys_to_virt demo_platform 0x3000 0x900 high_state
  = (NULL, State (smem_areas high_state) (shared high_state)
             [Err_overflow 0xFFFFF800 0x900]).
Proof. reflexivity. Qed.

(** ** Virtual to physical translation *)

(** The span the loop tests lies inside the virtual span of the area. *)
Lemma area_holds_in_span (a : smem_area) (addr : Z) :
  area_typed a -> area_holds a addr = true -> in_virt_span a addr.
Proof.
  intros (_ & [Hs _] & [Hv _]) H. unfold area_holds in H.
  apply andb_true_iff in H as [H1 H2].
  apply Z.leb_le in H1. apply Z.ltb_lt in H2.
  pose proof (wrap_le (virt_addr a + area_size a)).
  unfold in_virt_span. lia.
Qed.

Lemma in_span_area_holds (a : smem_area) (addr : Z) :
  area_typed a -> virt_addr a + area_size a < WORD_MOD ->
  in_virt_span a addr -> area_holds a addr = true.
Proof.
  intros (_ & [Hs _] & [Hv _]) Hend [H1 H2]. unfold area_holds.
  rewrite wrap_small by (unfold u32; lia).
  apply andb_true_iff. split; [apply Z.leb_le | apply Z.ltb_lt]; lia.
Qed.


Lemma virt_to_phys_scan_hit (l : list smem_area) (a : smem_area) (addr : Z) :
  Forall area_typed l -> In a l ->
  (forall b, In b l -> in_virt_span b addr -> b = a) ->
  virt_addr a + area_size a < WORD_MOD ->
  in_virt_span a addr ->
  virt_to_phys_scan l addr = wrap (phys_addr a + (addr - virt_addr a)).
Proof.
  intros Hty Hin Huniq Hend Hspan.
  induction Hty as [|b l Hb Hty IH]; [destruct Hin|]. simpl.
  destruct (area_holds b addr) eqn:E.
  - assert (b = a) as ->.
    { apply Huniq; [left; reflexivity|]. apply area_holds_in_span; assumption. }
    destruct Hb as (_ & _ & [Hv _]). destruct Hspan as [H1 H2].
    rewrite (wrap_small (addr - virt_addr a)) by (unfold u32; lia).
    f_equal. lia.
  - destruct Hin as [->|Hin].
    + rewrite in_span_area_holds in E by assumption. discriminate.
    + apply IH; [exact Hin|].
      intros c Hc. apply Huniq. right. exact Hc.
Qed.






(** ** The size read by [smem_find] *)

(** Whenever [smem_get_entry] returns a pointer it has stored [*size], so
    [smem_find] never reads its local [size] before it is written. *)
Lemma smem_get_entry_size_stored (P : platform) (id : Z) (s : smem_state) :
  fst (fst (smem_get_entry P id s)) <> NULL ->
  snd (fst (smem_get_entry P id s)) = Some (size (toc_entry s id)).
Proof.
  unfold smem_get_entry.
  destruct (SMEM_NUM_ITEMS P <=? id); [intros H; contradiction H; reflexivity|].
  sm_unfold.
  destruct (negb (allocated (toc_entry s id) =? 0));
    [|intros H; contradiction H; reflexivity].
  destruct (smem_phys_to_virt P _ _ s) as [r s']. reflexivity.
Qed.

(** ** The heap header along a run *)

Lemma heap_step_ok_trans (s1 s2 s3 : smem_state) :
  heap_step_ok s1 s2 -> heap_step_ok s2 s3 -> heap_step_ok s1 s3.
Proof. unfold heap_step_ok. intros (A & B & C) (D & E & F). lia. Qed.

Lemma run_call_heap_step (P : platform) (c : api_call) (s : smem_state) :
  heap_typed s -> heap_sum s < WORD_MOD ->
  heap_step_ok s (run_call P c s)
  /\ heap_typed (run_call P c s)
  /\ heap_sum (run_call P c s) < WORD_MOD.
Proof.
  intros Hty Hsum.
  assert (Hsame : forall s', shared s' = shared s ->
            heap_step_ok s s' /\ heap_typed s' /\ heap_sum s' < WORD_MOD).
  { intros s' E. split; [apply heap_step_ok_same; exact E|].
    unfold heap_typed, heap_sum in *. rewrite E. split; assumption. }
  destruct c as [id|id sz|id sz|id sz|a]; simpl.
  - apply Hsame, smem_get_entry_frame.
  - apply Hsame, smem_find_frame.
  - apply Hsame. unfold smem_alloc. apply smem_find_frame.
  - apply (smem_alloc2_heap_step P s id sz Hty). exact Hsum.
  - apply Hsame. unfold smem_virt_to_phys. sm_unfold.
    destruct (smem_areas s); reflexivity.
Qed.

(** Along any sequence of calls from a header whose sum fits 32 bits, the
    sum [free_offset + heap_remaining] stays what it was, [free_offset]
    only grows and [heap_remaining] only shrinks. *)
Lemma run_calls_heap_step (P : platform) (cs : list api_call) (s : smem_state) :
  heap_typed s -> heap_sum s < WORD_MOD ->
  heap_step_ok s (run_calls P cs s)
  /\ heap_typed (run_calls P cs s)
  /\ heap_sum (run_calls P cs s) < WORD_MOD.
Proof.
  unfold run_calls. revert s.
  induction cs as [|c cs IH]; intros s Hty Hsum; simpl.
  - split; [apply heap_step_ok_same; reflexivity | split; assumption].
  - destruct (run_call_heap_step P c s Hty Hsum) as (H1 & H2 & H3).
    destruct (IH (run_call P c s) H2 H3) as (K1 & K2 & K3).
    split; [exact (heap_step_ok_trans _ _ _ H1 K1) | split; assumption].
Qed.

(** ** The overflow test *)

(** X1: [OVERFLOW_ADD_UNSIGNED] is true exactly when [a + b] exceeds the
    largest value of the 32-bit type. *)
Theorem OVERFLOW_ADD_UNSIGNED_correct (a b : Z) :
  u32 a ->
  OVERFLOW_ADD_UNSIGNED a b = true <-> WORD_MOD - 1 < a + b.
Proof.
  intros Ha. rewrite OVERFLOW_ADD_UNSIGNED_spec by exact Ha.
  rewrite Z.leb_le. lia.
Qed.

Lemma OVERFLOW_ADD_UNSIGNED_correct_witness :
  OVERFLOW_ADD_UNSIGNED 0xFFFFFFF0 0x10 = true
  /\ OVERFLOW_ADD_UNSIGNED 0xFFFFFFF0 0xF = false.
Proof.
  split.
  - apply (OVERFLOW_ADD_UNSIGNED_correct 0xFFFFFFF0 0x10).
    + unfold u32. rewrite WORD_MOD_eq. lia.
    + rewrite WORD_MOD_eq. lia.
  - reflexivity.
Defined.

(** ** Translation against a well-formed registry *)

Lemma area_not_skipped_span (a : smem_area) (base off : Z) :
  area_typed a -> 0 <= off -> 0 <= base -> base + off < WORD_MOD ->
  area_skipped a base off = false ->
  phys_addr a <= base /\ base + off < phys_addr a + area_size a.
Proof.
  intros ([Hp _] & [Hs _] & _) Hoff Hb Hsum H. unfold area_skipped in H.
  apply orb_false_iff in H as [H1 H2].
  apply Z.ltb_ge in H1. apply Z.leb_gt in H2.
  rewrite (wrap_small (base + off)) in H2 by (unfold u32; lia).
  pose proof (wrap_le (phys_addr a + area_size a)). lia.
Qed.

Lemma area_span_not_skipped (a : smem_area) (base off : Z) :
  area_typed a -> phys_addr a + area_size a < WORD_MOD -> 0 <= off ->
  phys_addr a <= base -> base + off < phys_addr a + area_size a ->
  area_skipped a base off = false.
Proof.
  intros ([Hp _] & [Hs _] & _) Hend Hoff Hlo Hhi. unfold area_skipped.
  rewrite !wrap_small by (unfold u32; lia).
  apply orb_false_iff. split; [apply Z.ltb_ge | apply Z.leb_gt]; lia.
Qed.

(** The loop stops at the one area whose physical span holds [base]. *)
Lemma phys_to_virt_scan_hit (l : list smem_area) (a : smem_area) (base off : Z)
    (s : smem_state) :
  Forall area_typed l -> In a l ->
  (forall b, In b l -> in_phys_span b base -> b = a) ->
  phys_addr a + area_size a < WORD_MOD ->
  virt_addr a + area_size a <= WORD_MOD ->
  0 <= off -> phys_addr a <= base -> base + off < phys_addr a + area_size a ->
  phys_to_virt_scan l base off s = (virt_addr a + off, s).
Proof.
  intros Hty Hin Huniq Hpend Hvend Hoff Hlo Hhi.
  assert (Hbase : 0 <= base).
  { rewrite Forall_forall in Hty.
    destruct (Hty a (proj2 (list_elem_of_In _ _) Hin)) as ([Hp _] & _). lia. }
  induction Hty as [|b l Hb Hty IH]; [destruct Hin|]. simpl.
  destruct (area_skipped b base off) eqn:E.
  - destruct Hin as [->|Hin].
    + rewrite area_span_not_skipped in E by assumption. discriminate.
    + apply IH; [exact Hin|]. intros c Hc. apply Huniq. right. exact Hc.
  - assert (b = a) as ->.
    { apply Huniq; [left; reflexivity|].
      destruct (area_not_skipped_span b base off Hb) as [H1 H2];
        try assumption; try lia.
      unfold in_phys_span. lia. }
    destruct Hb as (_ & _ & Hv).
    rewrite OVERFLOW_ADD_UNSIGNED_spec by exact Hv.
    destruct (Z.leb_spec WORD_MOD (virt_addr a + off)) as [Hge|Hlt]; [lia|].
    sm_unfold. f_equal. apply wrap_small. unfold u32 in *. lia.
Qed.

Lemma registry_wf_typed (l : list smem_area) :
  registry_wf l -> Forall area_typed l.
Proof.
  intros (Hwf & _). eapply Forall_impl; [exact Hwf|].
  intros a (Ht & _). exact Ht.
Qed.

Lemma registry_wf_area (l : list smem_area) (a : smem_area) :
  registry_wf l -> In a l -> area_wf a.
Proof.
  intros (Hwf & _) Hin. rewrite Forall_forall in Hwf.
  apply Hwf. apply list_elem_of_In. exact Hin.
Qed.

(** [smem_phys_to_virt] on a base and offset inside one area of a
    well-formed registry. *)
Lemma smem_phys_to_virt_hit (P : platform) (s : smem_state) (l : list smem_area)
    (a : smem_area) (base off : Z) :
  smem_areas s = Some l -> registry_wf l -> In a l ->
  0 <= off -> phys_addr a <= base -> base + off < phys_addr a + area_size a ->
  smem_phys_to_virt P base off s = (virt_addr a + off, s).
Proof.
  intros E Hwf Hin Hoff Hlo Hhi.
  destruct (registry_wf_area l a Hwf Hin) as (([Hp _] & [Hs _] & Hv) & Hpe & Hve).
  unfold smem_phys_to_virt.
  rewrite OVERFLOW_ADD_UNSIGNED_spec by (unfold u32; lia).
  destruct (Z.leb_spec WORD_MOD (base + off)) as [Hge|_]; [lia|].
  sm_unfold. rewrite E.
  apply phys_to_virt_scan_hit; try assumption; try lia.
  - apply registry_wf_typed. exact Hwf.
  - intros b Hb Hspan. destruct Hwf as (_ & Hpd & _).
    apply (Hpd b a base Hb Hin Hspan). unfold in_phys_span. lia.
Qed.

Lemma demo_registry_wf : registry_wf [R0; R1; R2].
Proof.
  split; [|split].
  - repeat constructor; unfold u32; simpl; rewrite ?WORD_MOD_eq; lia.
  - intros a b x [<-|[<-|[<-|[]]]] [<-|[<-|[<-|[]]]];
      unfold in_phys_span; simpl; intros; (reflexivity || (exfalso; lia)).
  - intros a b x [<-|[<-|[<-|[]]]] [<-|[<-|[<-|[]]]];
      unfold in_virt_span; simpl; intros; (reflexivity || (exfalso; lia)).
Defined.

(** X2: every pointer that [smem_phys_to_virt] returns from the registry
    lies inside the virtual span of an area whose physical span holds
    [base] up to [base + offset]: the translator never hands out an
    address outside the registered mappings. *)
Theorem smem_phys_to_virt_in_region (P : platform) (s : smem_state)
    (l : list smem_area) (base off : Z) :
  smem_areas s = Some l -> Forall area_typed l -> u32 base -> u32 off ->
  fst (smem_phys_to_virt P base off s) <> NULL ->
  exists a, In a l
    /\ phys_addr a <= base /\ base + off < phys_addr a + area_size a
    /\ fst (smem_phys_to_virt P base off s) = virt_addr a + off
    /\ in_virt_span a (fst (smem_phys_to_virt P base off s)).
Proof.
  intros E Hty Hb Ho. unfold smem_phys_to_virt.
  rewrite OVERFLOW_ADD_UNSIGNED_spec by exact Hb.
  destruct (Z.leb_spec WORD_MOD (base + off)) as [Hge|Hlt];
    [intros H; contradiction H; reflexivity|].
  sm_unfold. rewrite E.
  rewrite phys_to_virt_scan_result by (exact Hty || apply Ho).
  destruct (find _ l) as [a|] eqn:F; [|intros H; contradiction H; reflexivity].
  apply find_some in F as [Hin Hns]. apply negb_true_iff in Hns.
  destruct (Z.leb_spec WORD_MOD (virt_addr a + off)) as [Hvge|Hvlt];
    [intros H; contradiction H; reflexivity|].
  intros _. exists a.
  assert (Ha : area_typed a).
  { rewrite Forall_forall in Hty. apply Hty, list_elem_of_In, Hin. }
  destruct (area_not_skipped_span a base off Ha) as [H1 H2];
    try assumption; try (unfold u32 in *; lia).
  destruct Ha as (_ & _ & [Hv _]).
  repeat split; try assumption; unfold u32 in *; lia.
Qed.

Lemma smem_phys_to_virt_in_region_witness :
  exists a, In a [R0; R1; R2]
    /\ phys_addr a <= 0x1050 /\ 0x1050 + 0x10 < phys_addr a + area_size a
    /\ fst (smem_phys_to_virt demo_platform 0x1050 0x10 demo_state) = virt_addr a + 0x10
    /\ in_virt_span a (fst (smem_phys_to_virt demo_platform 0x1050 0x10 demo_state)).
Proof.
  apply (smem_phys_to_virt_in_region demo_platform demo_state [R0; R1; R2]).
  - reflexivity.
  - apply registry_wf_typed, demo_registry_wf.
  - unfold u32. rewrite WORD_MOD_eq. lia.
  - unfold u32. rewrite WORD_MOD_eq. lia.
  - vm_compute. discriminate.
Defined.

(** X3: round trip through a well-formed registry.  For an area [a] and
    an offset inside it, [smem_phys_to_virt] from the physical base of [a]
    returns the virtual base of [a] plus the offset, and
    [smem_virt_to_phys] takes that pointer back to the physical base plus
    the offset. *)
Theorem smem_phys_virt_round_trip (P : platform) (s : smem_state)
    (l : list smem_area) (a : smem_area) (off : Z) :
  smem_areas s = Some l -> registry_wf l -> In a l ->
  0 <= off < area_size a ->
  smem_phys_to_virt P (phys_addr a) off s = (virt_addr a + off, s)
  /\ smem_virt_to_phys (virt_addr a + off) s = (phys_addr a + off, s).
Proof.
  intros E Hwf Hin [Ho1 Ho2]. split.
  - apply (smem_phys_to_virt_hit P s l a); try assumption; lia.
  - destruct (registry_wf_area l a Hwf Hin) as (([Hp _] & [Hs _] & [Hv _]) & Hpe & Hve).
    unfold smem_virt_to_phys. sm_unfold. rewrite E.
    rewrite (virt_to_phys_scan_hit l a).
    + f_equal. replace (virt_addr a + off - virt_addr a) with off by lia.
      apply wrap_small. unfold u32. lia.
    + apply registry_wf_typed. exact Hwf.
    + exact Hin.
    + intros b Hb Hspan. destruct Hwf as (_ & _ & Hvd).
      apply (Hvd b a (virt_addr a + off) Hb Hin Hspan).
      unfold in_virt_span. lia.
    + exact Hve.
    + unfold in_virt_span. lia.
Qed.

Lemma smem_phys_virt_round_trip_witness :
  smem_phys_to_virt demo_platform 0x2000 0x1F0 demo_state = (0xA1F0, demo_state)
  /\ smem_virt_to_phys 0xA1F0 demo_state = (0x21F0, demo_state).
Proof.
  apply (smem_phys_virt_round_trip demo_platform demo_state [R0; R1; R2] R2 0x1F0).
  - reflexivity.
  - exact demo_registry_wf.
  - right. right. left. reflexivity.
  - simpl. lia.
Defined.

(** [smem_phys_to_virt] of a pair inside the early-boot default. *)
Lemma smem_phys_to_virt_boot (P : platform) (s : smem_state) (base off : Z) :
  smem_areas s = None -> platform_typed P -> 0 <= off ->
  msm_shared_ram_phys P <= base ->
  base + off < msm_shared_ram_phys P + MSM_SHARED_RAM_SIZE P ->
  smem_phys_to_virt P base off s = (MSM_SHARED_RAM_BASE P + off, s).
Proof.
  intros E ([Hp0 Hp1] & [Hv0 Hv1] & Hs & Hpe & Hve) Ho0 Hlo Hhi.
  unfold smem_phys_to_virt.
  rewrite !OVERFLOW_ADD_UNSIGNED_spec by (unfold u32; lia).
  destruct (Z.leb_spec WORD_MOD (base + off)) as [Hge|_]; [lia|].
  sm_unfold. rewrite E.
  rewrite !wrap_small by (unfold u32; lia).
  destruct (Z.leb_spec (msm_shared_ram_phys P) base); [|lia].
  destruct (Z.ltb_spec (base + off)
              (msm_shared_ram_phys P + MSM_SHARED_RAM_SIZE P)); [|lia].
  destruct (Z.leb_spec WORD_MOD (MSM_SHARED_RAM_BASE P + off)); [lia|].
  reflexivity.
Qed.

(** X4: early boot.  While no area is configured, [smem_phys_to_virt]
    resolves exactly the pairs with [msm_shared_ram_phys <= base] and
    [base + offset < msm_shared_ram_phys + MSM_SHARED_RAM_SIZE], to
    [MSM_SHARED_RAM_BASE + offset]; every other pair gives [NULL].  It
    prints nothing. *)
Theorem smem_phys_to_virt_early_boot (P : platform) (s : smem_state) (base off : Z) :
  smem_areas s = None -> platform_typed P -> u32 base -> u32 off ->
  smem_phys_to_virt P base off s =
  (if (msm_shared_ram_phys P <=? base)
      && (base + off <? msm_shared_ram_phys P + MSM_SHARED_RAM_SIZE P)
   then MSM_SHARED_RAM_BASE P + off else NULL, s).
Proof.
  intros E Hty [Hb0 Hb1] [Ho0 Ho1].
  destruct (Z.leb_spec (msm_shared_ram_phys P) base) as [Hlo|Hlo];
    destruct (Z.ltb_spec (base + off)
                (msm_shared_ram_phys P + MSM_SHARED_RAM_SIZE P)) as [Hhi|Hhi];
    simpl;
    try (apply smem_phys_to_virt_boot; assumption).
  all: destruct Hty as ([Hp0 Hp1] & [Hv0 Hv1] & Hs & Hpe & Hve).
  all: unfold smem_phys_to_virt.
  all: rewrite OVERFLOW_ADD_UNSIGNED_spec by (unfold u32; lia).
  all: destruct (Z.leb_spec WORD_MOD (base + off)) as [Hge|Hlt];
         [reflexivity|].
  all: sm_unfold; rewrite E.
  all: rewrite !wrap_small by (unfold u32; lia).
  - destruct (Z.ltb_spec (base + off)
                (msm_shared_ram_phys P + MSM_SHARED_RAM_SIZE P)); [lia|].
    rewrite andb_false_r. reflexivity.
  - destruct (Z.leb_spec (msm_shared_ram_phys P) base); [lia|]. reflexivity.
  - destruct (Z.leb_spec (msm_shared_ram_phys P) base); [lia|]. reflexivity.
Qed.

Lemma demo_platform_typed : platform_typed demo_platform.
Proof.
  unfold platform_typed, u32. simpl. rewrite WORD_MOD_eq. lia.
Defined.

Lemma smem_phys_to_virt_early_boot_witness :
  smem_phys_to_virt demo_platform 0x00100000 0x400 boot_state
  = (0xFA300400, boot_state).
Proof.
  apply (smem_phys_to_virt_early_boot demo_platform boot_state 0x00100000 0x400).
  - reflexivity.
  - exact demo_platform_typed.
  - unfold u32. rewrite WORD_MOD_eq. lia.
  - unfold u32. rewrite WORD_MOD_eq. lia.
Defined.

(** ** What [smem_alloc2] writes *)

(** A fresh request is served by the stores of [claimed_state]. *)
Lemma smem_alloc2_fresh (P : platform) (s : smem_state) (id size_in : Z) :
  fresh_request P s id size_in ->
  smem_alloc2 P id size_in s =
  (wrap (MSM_SHARED_RAM_BASE P
         + offset (toc_entry (claimed_state s id (ALIGN size_in 8)) id)),
   claimed_state s id (ALIGN size_in 8)).
Proof.
  intros (Hi & Hid & Hdyn & Hun & Hfit). unfold smem_alloc2. sm_unfold.
  destruct (Z.eqb_spec (initialized (heap_info (shared s))) 0) as [E|_];
    [contradiction|].
  destruct (Z.leb_spec (SMEM_NUM_ITEMS P) id) as [Hge|_]; [lia|].
  rewrite Hun. simpl.
  destruct (Z.ltb_spec (SMEM_FIXED_ITEM_LAST P) id) as [_|Hle]; [|lia].
  destruct (Z.leb_spec (ALIGN size_in 8) (heap_remaining (heap_info (shared s))))
    as [_|Hgt]; [|lia].
  reflexivity.
Qed.

(** Every other request leaves the shared root structure and the
    registry alone. *)
Lemma smem_alloc2_cases (P : platform) (s : smem_state) (id size_in : Z) :
  (shared (snd (smem_alloc2 P id size_in s)) = shared s
   /\ smem_areas (snd (smem_alloc2 P id size_in s)) = smem_areas s)
  \/ fresh_request P s id size_in.
Proof.
  unfold fresh_request, smem_alloc2. sm_unfold.
  destruct (Z.eqb_spec (initialized (heap_info (shared s))) 0) as [Hi|Hi];
    [left; split; reflexivity|].
  destruct (Z.leb_spec (SMEM_NUM_ITEMS P) id) as [Hge|Hlt];
    [left; split; reflexivity|].
  destruct (Z.eqb_spec (allocated (toc_entry s id)) 0) as [Hun|Hal]; simpl.
  - destruct (Z.ltb_spec (SMEM_FIXED_ITEM_LAST P) id) as [Hdyn|Hfix];
      [|left; split; reflexivity].
    destruct (Z.leb_spec (ALIGN size_in 8) (heap_remaining (heap_info (shared s))))
      as [Hfit|Hgt]; [|left; split; reflexivity].
    right. repeat split; assumption.
  - destruct (negb (ALIGN size_in 8 =? size (toc_entry s id)));
      left; split; reflexivity.
Qed.

Lemma toc_entry_shared (s s' : smem_state) (id : Z) :
  shared s' = shared s -> toc_entry s' id = toc_entry s id.
Proof. intros E. unfold toc_entry. rewrite E. reflexivity. Qed.

Lemma toc_entry_claimed_other (s : smem_state) (id id' z : Z) :
  Z.to_nat id' <> Z.to_nat id ->
  toc_entry (claimed_state s id z) id' = toc_entry s id'.
Proof.
  intros Hne. unfold toc_entry, claimed_state. simpl.
  rewrite !list_lookup_alter_ne by (intros E; apply Hne; symmetry; exact E).
  reflexivity.
Qed.

Lemma toc_entry_claimed_same (s : smem_state) (id z : Z) :
  (Z.to_nat id < length (heap_toc (shared s)))%nat ->
  toc_entry (claimed_state s id z) id
  = HeapEntry 1 (free_offset (heap_info (shared s))) z (reserved (toc_entry s id)).
Proof. intros Hlt. unfold claimed_state. apply toc_entry_claimed. exact Hlt. Qed.

(** X5: a fresh allocation is a bump of the cursor.  For an unallocated
    identifier of the dynamic range on an initialized heap with room,
    [smem_alloc2] returns [MSM_SHARED_RAM_BASE + free_offset], records
    [allocated = 1], the old [free_offset] and the aligned size in the
    slot (keeping [reserved]), advances [free_offset] and lowers
    [heap_remaining] by the aligned size, and prints nothing. *)
Theorem smem_alloc2_fresh_effect (P : platform) (s : smem_state) (id size_in : Z) :
  toc_sized P s -> heap_typed s -> 0 <= id ->
  fresh_request P s id size_in ->
  let fo := free_offset (heap_info (shared s)) in
  let z := ALIGN size_in 8 in
  let s' := snd (smem_alloc2 P id size_in s) in
  fst (smem_alloc2 P id size_in s) = wrap (MSM_SHARED_RAM_BASE P + fo)
  /\ toc_entry s' id = HeapEntry 1 fo z (reserved (toc_entry s id))
  /\ heap_info (shared s') =
     HeapInfo (initialized (heap_info (shared s))) (wrap (fo + z))
       (heap_remaining (heap_info (shared s)) - z)
  /\ smem_areas s' = smem_areas s
  /\ klog s' = klog s.
Proof.
  intros Hsz (_ & [Hr0 Hr1]) Hid Hfresh fo z s'. subst s'.
  rewrite (smem_alloc2_fresh P s id size_in Hfresh). simpl.
  destruct Hfresh as (_ & Hlt & _ & _ & Hfit).
  pose proof (toc_index_in_range P s id Hsz (conj Hid Hlt)) as Hin.
  rewrite toc_entry_claimed_same by exact Hin. simpl.
  repeat split; try reflexivity.
  unfold sub_heap_remaining, add_free_offset. simpl. f_equal.
  destruct (ALIGN_u32 size_in 8) as [Ha0 Ha1]. fold z in Ha0, Ha1, Hfit.
  apply wrap_small. unfold u32. lia.
Qed.

Lemma demo_state_typed_heap : heap_typed demo_state.
Proof. unfold heap_typed, u32. simpl. rewrite WORD_MOD_eq. lia. Defined.

Lemma demo_fresh_request : fresh_request demo_platform demo_state 9 13.
Proof.
  unfold fresh_request.
  repeat split; vm_compute; (reflexivity || discriminate).
Defined.

Lemma smem_alloc2_fresh_effect_witness :
  fst (smem_alloc2 demo_platform 9 13 demo_state) = 0xFA300400
  /\ toc_entry (snd (smem_alloc2 demo_platform 9 13 demo_state)) 9
     = HeapEntry 1 0x400 16 0
  /\ heap_info (shared (snd (smem_alloc2 demo_platform 9 13 demo_state)))
     = HeapInfo 1 0x410 0xFF0.
Proof.
  destruct (smem_alloc2_fresh_effect demo_platform demo_state 9 13)
    as (H1 & H2 & H3 & _).
  - reflexivity.
  - exact demo_state_typed_heap.
  - lia.
  - exact demo_fresh_request.
  - split; [exact H1 | split; [exact H2 | exact H3]].
Defined.

(** X6: [smem_alloc2(id, _)] never touches another slot: the slot of every
    identifier other than [id] is as before, whatever the outcome. *)
Theorem smem_alloc2_other_slots (P : platform) (s : smem_state) (id id' size_in : Z) :
  0 <= id -> 0 <= id' -> id' <> id ->
  toc_entry (snd (smem_alloc2 P id size_in s)) id' = toc_entry s id'.
Proof.
  intros Hid Hid' Hne.
  destruct (smem_alloc2_cases P s id size_in) as [[E _]|Hfresh].
  - apply toc_entry_shared. exact E.
  - rewrite (smem_alloc2_fresh P s id size_in Hfresh). simpl.
    apply toc_entry_claimed_other. lia.
Qed.

Lemma smem_alloc2_other_slots_witness :
  toc_entry (snd (smem_alloc2 demo_platform 9 13 demo_state_9)) 10
  = toc_entry demo_state_9 10
  /\ toc_entry (snd (smem_alloc2 demo_platform 10 24 demo_state_9)) 9
     = toc_entry demo_state_9 9.
Proof.
  split.
  - apply (smem_alloc2_other_slots demo_platform demo_state_9 9 10 13); lia.
  - apply (smem_alloc2_other_slots demo_platform demo_state_9 10 9 24); lia.
Defined.

(** X7: what a returned pointer tells.  When [smem_alloc2] returns a
    pointer, the heap is initialized, [id] is below [SMEM_NUM_ITEMS], the
    slot is allocated with exactly the aligned size, and the pointer is
    [MSM_SHARED_RAM_BASE] plus the offset recorded in the slot. *)
Theorem smem_alloc2_pointer_meaning (P : platform) (s : smem_state) (id size_in : Z) :
  toc_sized P s -> 0 <= id ->
  fst (smem_alloc2 P id size_in s) <> NULL ->
  let s' := snd (smem_alloc2 P id size_in s) in
  initialized (heap_info (shared s')) <> 0
  /\ id < SMEM_NUM_ITEMS P
  /\ allocated (toc_entry s' id) <> 0
  /\ size (toc_entry s' id) = ALIGN size_in 8
  /\ fst (smem_alloc2 P id size_in s)
     = wrap (MSM_SHARED_RAM_BASE P + offset (toc_entry s' id)).
Proof.
  intros Hsz Hid Hr s'. subst s'.
  destruct (smem_alloc2 P id size_in s) as [r s1] eqn:E. simpl in *.
  exact (smem_alloc2_success P s s1 id size_in r Hsz Hid E Hr).
Qed.

Lemma smem_alloc2_pointer_meaning_witness :
  allocated (toc_entry (snd (smem_alloc2 demo_platform 9 13 demo_state)) 9) <> 0
  /\ size (toc_entry (snd (smem_alloc2 demo_platform 9 13 demo_state)) 9) = ALIGN 13 8.
Proof.
  destruct (smem_alloc2_pointer_meaning demo_platform demo_state 9 13)
    as (_ & _ & H3 & H4 & _).
  - reflexivity.
  - lia.
  - vm_compute. discriminate.
  - split; [exact H3 | exact H4].
Defined.

(** ** Lookup *)

(** X8: an identifier at or above [SMEM_NUM_ITEMS] is rejected by every
    entry point before the table is read: [smem_get_entry] returns [NULL]
    and stores nothing to [*size], [smem_find] and [smem_alloc2] return
    [NULL], and the shared root structure is unchanged. *)
Theorem invalid_identifier_rejected (P : platform) (s : smem_state) (id size_in : Z) :
  SMEM_NUM_ITEMS P <= id ->
  smem_get_entry P id s = ((NULL, None), s)
  /\ smem_find P id size_in s = (NULL, s)
  /\ fst (smem_alloc2 P id size_in s) = NULL
  /\ shared (snd (smem_alloc2 P id size_in s)) = shared s.
Proof.
  intros Hid.
  assert (HG : smem_get_entry P id s = ((NULL, None), s)).
  { unfold smem_get_entry.
    destruct (Z.leb_spec (SMEM_NUM_ITEMS P) id) as [_|Hlt]; [reflexivity | lia]. }
  split; [exact HG|]. split.
  - unfold smem_find. sm_unfold. rewrite HG. reflexivity.
  - unfold smem_alloc2. sm_unfold.
    destruct (initialized (heap_info (shared s)) =? 0); [split; reflexivity|].
    destruct (Z.leb_spec (SMEM_NUM_ITEMS P) id) as [_|Hlt]; [|lia].
    split; reflexivity.
Qed.

Lemma invalid_identifier_rejected_witness :
  smem_get_entry demo_platform 16 demo_state_9 = ((NULL, None), demo_state_9)
  /\ smem_find demo_platform 16 13 demo_state_9 = (NULL, demo_state_9)
  /\ fst (smem_alloc2 demo_platform 16 13 demo_state_9) = NULL
  /\ shared (snd (smem_alloc2 demo_platform 16 13 demo_state_9)) = shared demo_state_9.
Proof.
  apply (invalid_identifier_rejected demo_platform demo_state_9 16 13).
  simpl. lia.
Defined.

(** X9: [smem_find] is [smem_get_entry] behind a size check: it returns
    the pointer of [smem_get_entry] when that is not [NULL] and the size
    stored in the slot equals the aligned [size_in], and [NULL]
    otherwise. *)
Theorem smem_find_spec (P : platform) (id size_in : Z) (s : smem_state) :
  fst (smem_find P id size_in s) =
  if negb (fst (fst (smem_get_entry P id s)) =? NULL)
     && (ALIGN size_in 8 =? size (toc_entry s id))
  then fst (fst (smem_get_entry P id s)) else NULL.
Proof.
  unfold smem_find. sm_unfold.
  pose proof (smem_get_entry_size_stored P id s) as Hst.
  destruct (smem_get_entry P id s) as [[ptr osz] s1]. simpl in *.
  destruct (Z.eqb_spec ptr NULL) as [E|E]; [reflexivity|].
  rewrite (Hst E). simpl.
  destruct (ALIGN size_in 8 =? size (toc_entry s id)); reflexivity.
Qed.

(** The registry is not written by [smem_alloc2]. *)
Lemma smem_alloc2_areas (P : platform) (s : smem_state) (id size_in : Z) :
  smem_areas (snd (smem_alloc2 P id size_in s)) = smem_areas s.
Proof.
  destruct (smem_alloc2_cases P s id size_in) as [[_ E]|Hfresh]; [exact E|].
  rewrite (smem_alloc2_fresh P s id size_in Hfresh). reflexivity.
Qed.

(** Translation of an offset inside the primary region. *)
Lemma smem_phys_to_virt_primary (P : platform) (s : smem_state) (off : Z) :
  primary_mapped P s -> 0 <= off < MSM_SHARED_RAM_SIZE P ->
  smem_phys_to_virt P (msm_shared_ram_phys P) off s
  = (MSM_SHARED_RAM_BASE P + off, s).
Proof.
  intros (Hty & Hmap) [Ho0 Ho1].
  pose proof Hty as ([Hp0 Hp1] & [Hv0 Hv1] & Hs & Hpe & Hve).
  destruct (smem_areas s) as [l|] eqn:E.
  - destruct Hmap as [Hwf Hin].
    apply (smem_phys_to_virt_hit P s l (primary_area P)); simpl;
      try assumption; lia.
  - apply smem_phys_to_virt_boot; try assumption; lia.
Qed.

(** X10: lookup after allocation.  When [smem_alloc2(id, size)] returned a
    pointer for a slot that lies in the primary region (no base override
    in [reserved], offset below [MSM_SHARED_RAM_SIZE]) and the primary
    region is reachable by the translator, [smem_find(id, size)] returns
    the same pointer and changes nothing. *)
Theorem smem_find_after_alloc2 (P : platform) (s : smem_state) (id size_in : Z) :
  toc_sized P s -> 0 <= id -> primary_mapped P s ->
  let r := fst (smem_alloc2 P id size_in s) in
  let s1 := snd (smem_alloc2 P id size_in s) in
  r <> NULL ->
  wrap (Z.land (reserved (toc_entry s1 id)) (BASE_ADDR_MASK P)) = 0 ->
  0 <= offset (toc_entry s1 id) < MSM_SHARED_RAM_SIZE P ->
  smem_find P id size_in s1 = (r, s1).
Proof.
  intros Hsz Hid Hmap r s1 Hr Hres Hoff. subst r s1.
  pose proof (smem_alloc2_areas P s id size_in) as Hareas.
  destruct (smem_alloc2 P id size_in s) as [r s1] eqn:E. simpl in *.
  destruct (smem_alloc2_success P s s1 id size_in r Hsz Hid E Hr)
    as (_ & Hlt & Hal & Hs & Hptr).
  assert (Hmap1 : primary_mapped P s1).
  { unfold primary_mapped in *. rewrite Hareas. exact Hmap. }
  pose proof (smem_phys_to_virt_primary P s1 _ Hmap1 Hoff) as Htr.
  destruct Hmap as (([_ _] & [Hv0 Hv1] & _ & _ & Hve) & _).
  rewrite wrap_small in Hptr by (unfold u32; lia).
  unfold smem_find, smem_get_entry. sm_unfold.
  destruct (Z.leb_spec (SMEM_NUM_ITEMS P) id) as [Hge|_]; [lia|].
  destruct (Z.eqb_spec (allocated (toc_entry s1 id)) 0) as [C|_];
    [contradiction|].
  simpl. rewrite Hres. simpl. rewrite Htr. simpl.
  rewrite <- Hptr.
  destruct (Z.eqb_spec r NULL) as [C|_]; [contradiction|].
  rewrite Hs, Z.eqb_refl. reflexivity.
Qed.

Lemma demo_primary_mapped : primary_mapped demo_platform demo_state.
Proof.
  split; [exact demo_platform_typed|]. simpl.
  split; [exact demo_registry_wf | left; reflexivity].
Defined.

Lemma smem_find_after_alloc2_witness :
  smem_find demo_platform 9 13 demo_state_9 = (0xFA300400, demo_state_9).
Proof.
  apply (smem_find_after_alloc2 demo_platform demo_state 9 13).
  - reflexivity.
  - lia.
  - exact demo_primary_mapped.
  - vm_compute. discriminate.
  - reflexivity.
  - vm_compute. split; [discriminate | reflexivity].
Defined.

(** ** Runs of the public entry points *)

Lemma run_call_unchanged_or_fresh (P : platform) (c : api_call) (s : smem_state) :
  (shared (run_call P c s) = shared s /\ smem_areas (run_call P c s) = smem_areas s)
  \/ exists id size_in,
       c = Call_alloc2 id size_in /\ fresh_request P s id size_in
       /\ run_call P c s = claimed_state s id (ALIGN size_in 8).
Proof.
  destruct c as [id|id sz|id sz|id sz|a]; simpl.
  - left. destruct (smem_get_entry_frame P id s). split; assumption.
  - left. destruct (smem_find_frame P id sz s). split; assumption.
  - left. unfold smem_alloc. destruct (smem_find_frame P id sz s).
    split; assumption.
  - destruct (smem_alloc2_cases P s id sz) as [H|Hfresh]; [left; exact H|].
    right. exists id, sz. split; [reflexivity|]. split; [exact Hfresh|].
    rewrite (smem_alloc2_fresh P s id sz Hfresh). reflexivity.
  - left. unfold smem_virt_to_phys. sm_unfold.
    destruct (smem_areas s) eqn:E; simpl; rewrite E; split; reflexivity.
Qed.

Lemma run_call_allocated_kept (P : platform) (c : api_call) (s : smem_state) (id : Z) :
  allocated (toc_entry s id) <> 0 ->
  toc_entry (run_call P c s) id = toc_entry s id.
Proof.
  intros Hal.
  destruct (run_call_unchanged_or_fresh P c s)
    as [[E _]|(id' & sz & _ & Hfresh & ->)].
  - apply toc_entry_shared. exact E.
  - apply toc_entry_claimed_other. intros Heq.
    destruct Hfresh as (_ & _ & _ & Hun & _).
    apply Hal. unfold toc_entry in *. rewrite Heq. exact Hun.
Qed.

(** X11: allocation is final.  Once a slot is allocated, no sequence of
    calls of the entry points changes it: its offset, size and reserved
    field stay, and it stays allocated. *)
Theorem allocated_slot_permanent (P : platform) (cs : list api_call)
    (s : smem_state) (id : Z) :
  allocated (toc_entry s id) <> 0 ->
  toc_entry (run_calls P cs s) id = toc_entry s id.
Proof.
  unfold run_calls. revert s.
  induction cs as [|c cs IH]; intros s Hal; simpl; [reflexivity|].
  pose proof (run_call_allocated_kept P c s id Hal) as Hstep.
  rewrite IH by (rewrite Hstep; exact Hal).
  exact Hstep.
Qed.

Lemma allocated_slot_permanent_witness :
  toc_entry
    (run_calls demo_platform
       [Call_alloc2 9 24; Call_alloc2 10 8; Call_find 9 16; Call_alloc2 9 13]
       demo_state_9) 9
  = HeapEntry 1 0x400 16 0.
Proof.
  rewrite (allocated_slot_permanent demo_platform _ demo_state_9 9).
  - reflexivity.
  - vm_compute. discriminate.
Defined.

(** X12: the entry points never write the region registry and never
    change the number of slots of the table, along any sequence of
    calls. *)
Theorem run_calls_frame (P : platform) (cs : list api_call) (s : smem_state) :
  smem_areas (run_calls P cs s) = smem_areas s
  /\ length (heap_toc (shared (run_calls P cs s))) = length (heap_toc (shared s)).
Proof.
  unfold run_calls. revert s.
  induction cs as [|c cs IH]; intros s; simpl; [split; reflexivity|].
  destruct (IH (run_call P c s)) as [H1 H2]. rewrite H1, H2.
  destruct (run_call_unchanged_or_fresh P c s)
    as [[E Ea]|(id & sz & _ & _ & ->)].
  - rewrite E. split; [exact Ea | reflexivity].
  - unfold claimed_state. simpl. rewrite !length_alter. split; reflexivity.
Qed.

(** X13: along any sequence of calls from a header of 32-bit fields whose
    sum [free_offset + heap_remaining] fits 32 bits, the sum stays what it
    was, [free_offset] never decreases and [heap_remaining] never
    increases. *)
Theorem heap_sum_along_run (P : platform) (cs : list api_call) (s : smem_state) :
  heap_typed s -> heap_sum s < WORD_MOD ->
  heap_sum (run_calls P cs s) = heap_sum s
  /\ free_offset (heap_info (shared s))
     <= free_offset (heap_info (shared (run_calls P cs s)))
  /\ heap_remaining (heap_info (shared (run_calls P cs s)))
     <= heap_remaining (heap_info (shared s)).
Proof.
  intros Hty Hsum.
  destruct (run_calls_heap_step P cs s Hty Hsum) as (H & _ & _).
  exact H.
Qed.

Lemma heap_sum_along_run_witness :
  heap_sum (run_calls demo_platform
              [Call_alloc2 9 13; Call_find 9 13; Call_alloc2 10 0x800;
               Call_alloc2 11 0x1000] demo_state) = 0x1400.
Proof.
  destruct (heap_sum_along_run demo_platform
              [Call_alloc2 9 13; Call_find 9 13; Call_alloc2 10 0x800;
               Call_alloc2 11 0x1000] demo_state) as (H & _).
  - exact demo_state_typed_heap.
  - vm_compute. reflexivity.
  - rewrite H. reflexivity.
Defined.

(** ** Slots do not overlap *)

Lemma claimed_state_cursor (s : smem_state) (id z : Z) :
  heap_typed s -> heap_sum s < WORD_MOD ->
  0 <= z <= heap_remaining (heap_info (shared s)) ->
  free_offset (heap_info (shared (claimed_state s id z)))
  = free_offset (heap_info (shared s)) + z.
Proof.
  intros [[Hf0 Hf1] [Hr0 Hr1]] Hsum [Hz0 Hz1].
  unfold claimed_state, heap_sum in *. simpl.
  apply wrap_small. unfold u32. lia.
Qed.

Lemma run_call_below_cursor (P : platform) (c : api_call) (s : smem_state) :
  heap_typed s -> heap_sum s < WORD_MOD ->
  toc_below_cursor s -> toc_below_cursor (run_call P c s).
Proof.
  intros Hty Hsum Hinv.
  destruct (run_call_unchanged_or_fresh P c s)
    as [[E _]|(id & sz & _ & Hfresh & ->)].
  - intros id0. unfold toc_below_cursor in Hinv.
    rewrite (toc_entry_shared s _ id0 E), E. apply Hinv.
  - destruct Hfresh as (_ & _ & _ & Hun & Hfit).
    destruct (ALIGN_u32 sz 8) as [Hz0 _].
    intros id0 Hal.
    rewrite claimed_state_cursor by (assumption || lia).
    destruct (Nat.eq_dec (Z.to_nat id0) (Z.to_nat id)) as [Heq|Hne].
    + assert (Hsame : toc_entry (claimed_state s id (ALIGN sz 8)) id0
                      = toc_entry (claimed_state s id (ALIGN sz 8)) id)
        by (unfold toc_entry; rewrite Heq; reflexivity).
      rewrite Hsame in *.
      destruct (Nat.lt_ge_cases (Z.to_nat id) (length (heap_toc (shared s))))
        as [Hin|Hout].
      * rewrite toc_entry_claimed_same by exact Hin. simpl. lia.
      * exfalso. apply Hal. unfold toc_entry, claimed_state. simpl.
        rewrite lookup_ge_None_2 by (rewrite !length_alter; exact Hout).
        reflexivity.
    + rewrite toc_entry_claimed_other in * by exact Hne.
      specialize (Hinv id0 Hal). lia.
Qed.

(** X14: the cursor stays above the slots.  If every allocated slot ends
    at or below [free_offset] and the header sum fits 32 bits, the same
    holds after any sequence of calls. *)
Theorem toc_below_cursor_along_run (P : platform) (cs : list api_call) (s : smem_state) :
  heap_typed s -> heap_sum s < WORD_MOD ->
  toc_below_cursor s -> toc_below_cursor (run_calls P cs s).
Proof.
  unfold run_calls. revert s.
  induction cs as [|c cs IH]; intros s Hty Hsum Hinv; simpl; [exact Hinv|].
  destruct (run_call_heap_step P c s Hty Hsum) as (_ & Hty' & Hsum').
  apply IH; try assumption.
  apply run_call_below_cursor; assumption.
Qed.

Lemma demo_below_cursor : toc_below_cursor demo_state.
Proof.
  intros id Hal. exfalso. apply Hal. unfold toc_entry.
  change (heap_toc (shared demo_state)) with (replicate 16%nat zero_entry).
  destruct (replicate 16%nat zero_entry !! Z.to_nat id) as [e|] eqn:E;
    [|reflexivity].
  apply lookup_replicate in E as [-> _]. reflexivity.
Defined.

Lemma toc_below_cursor_along_run_witness :
  offset (toc_entry (run_calls demo_platform
                       [Call_alloc2 9 13; Call_alloc2 10 0x800] demo_state) 10)
  + size (toc_entry (run_calls demo_platform
                       [Call_alloc2 9 13; Call_alloc2 10 0x800] demo_state) 10)
  <= free_offset (heap_info (shared (run_calls demo_platform
                       [Call_alloc2 9 13; Call_alloc2 10 0x800] demo_state))).
Proof.
  apply (toc_below_cursor_along_run demo_platform
           [Call_alloc2 9 13; Call_alloc2 10 0x800] demo_state).
  - exact demo_state_typed_heap.
  - vm_compute. reflexivity.
  - exact demo_below_cursor.
  - vm_compute. discriminate.
Defined.

(** Distinct offsets below 2^32 give distinct addresses. *)
Lemma wrap_add_injective (b x y : Z) :
  0 <= x -> x < y -> y < WORD_MOD -> wrap (b + x) <> wrap (b + y).
Proof.
  intros Hx Hxy Hy E. unfold wrap in E.
  assert (H : (b + y - (b + x)) mod WORD_MOD = 0).
  { rewrite Zminus_mod, E, Z.sub_diag. apply Z.mod_0_l.
    rewrite WORD_MOD_eq. lia. }
  replace (b + y - (b + x)) with (y - x) in H by lia.
  rewrite Z.mod_small in H by lia. lia.
Qed.

(** X15: a new slot overlaps no old one.  On a header of 32-bit fields
    whose sum [free_offset + heap_remaining] fits 32 bits, and with every
    allocated slot ending at or below the cursor, the slot claimed by a
    fresh allocation starts at or after the end of every slot that was
    allocated before and ends below 2^32; so no byte of it, at
    [MSM_SHARED_RAM_BASE] plus its offset in 32-bit pointer arithmetic,
    is a byte of an old slot.  The old slots are unchanged. *)
Theorem fresh_slot_disjoint (P : platform) (s : smem_state) (id id' size_in : Z) :
  toc_sized P s -> heap_typed s -> heap_sum s < WORD_MOD -> 0 <= id ->
  toc_below_cursor s -> fresh_request P s id size_in ->
  allocated (toc_entry s id') <> 0 ->
  0 <= offset (toc_entry s id') ->
  let s' := snd (smem_alloc2 P id size_in s) in
  toc_entry s' id' = toc_entry s id'
  /\ offset (toc_entry s' id') + size (toc_entry s' id')
     <= offset (toc_entry s' id)
  /\ offset (toc_entry s' id) + size (toc_entry s' id) < WORD_MOD
  /\ (forall x y,
        offset (toc_entry s' id') <= x
          < offset (toc_entry s' id') + size (toc_entry s' id') ->
        offset (toc_entry s' id) <= y
          < offset (toc_entry s' id) + size (toc_entry s' id) ->
        wrap (MSM_SHARED_RAM_BASE P + x) <> wrap (MSM_SHARED_RAM_BASE P + y)).
Proof.
  intros Hsz Hty Hsum Hid Hinv Hfresh Hal Hoff s'. subst s'.
  rewrite (smem_alloc2_fresh P s id size_in Hfresh). simpl.
  pose proof Hfresh as (_ & Hlt & _ & Hun & Hfit).
  assert (Hne : Z.to_nat id' <> Z.to_nat id).
  { intros Heq. apply Hal. unfold toc_entry in *. rewrite Heq. exact Hun. }
  rewrite toc_entry_claimed_other by exact Hne.
  rewrite toc_entry_claimed_same
    by (apply (toc_index_in_range P); [exact Hsz | lia]).
  simpl.
  pose proof (Hinv id' Hal) as Hold.
  destruct Hty as [[Hf0 Hf1] [Hr0 Hr1]].
  destruct (ALIGN_u32 size_in 8) as [Hz0 _].
  unfold heap_sum in Hsum.
  split; [reflexivity|]. split; [exact Hold|]. split; [lia|].
  intros x y [Hx0 Hx1] [Hy0 Hy1].
  apply wrap_add_injective; lia.
Qed.

Lemma demo_state_9_below_cursor : toc_below_cursor demo_state_9.
Proof.
  apply (run_call_below_cursor demo_platform (Call_alloc2 9 13) demo_state).
  - exact demo_state_typed_heap.
  - vm_compute. reflexivity.
  - exact demo_below_cursor.
Defined.

Lemma fresh_slot_disjoint_witness :
  offset (toc_entry (snd (smem_alloc2 demo_platform 10 24 demo_state_9)) 9)
  + size (toc_entry (snd (smem_alloc2 demo_platform 10 24 demo_state_9)) 9)
  <= offset (toc_entry (snd (smem_alloc2 demo_platform 10 24 demo_state_9)) 10)
  /\ offset (toc_entry (snd (smem_alloc2 demo_platform 10 24 demo_state_9)) 10)
     + size (toc_entry (snd (smem_alloc2 demo_platform 10 24 demo_state_9)) 10)
     < WORD_MOD.
Proof.
  destruct (fresh_slot_disjoint demo_platform demo_state_9 10 9 24)
    as (_ & H1 & H2 & _).
  - reflexivity.
  - unfold heap_typed, u32. vm_compute. repeat split; discriminate.
  - vm_compute. reflexivity.
  - lia.
  - exact demo_state_9_below_cursor.
  - unfold fresh_request. repeat split; vm_compute; (reflexivity || discriminate).
  - vm_compute. discriminate.
  - vm_compute. discriminate.
  - split; [exact H1 | exact H2].
Defined.

(** ** Restart notifier *)

Section RestartFacts.
Context (SMEM_MODEM SMEM_Q6 SMEM_WCNSS SMEM_DSPS : Z).
Context (SUBSYS_AFTER_SHUTDOWN NOTIFY_DONE : Z).
Context (IS_ERR_OR_NULL : Z -> bool).
Context (do_elf_ramdump : list restart_event -> Z -> Z -> Z).
Context (create_ramdump_device : list restart_event -> string -> Z).

Local Abbreviation cb := (restart_notifier_cb SUBSYS_AFTER_SHUTDOWN NOTIFY_DONE do_elf_ramdump).
Local Abbreviation notify := (notify_all SUBSYS_AFTER_SHUTDOWN NOTIFY_DONE do_elf_ramdump).
Local Abbreviation late_init :=
  (modem_restart_late_init SMEM_MODEM SMEM_Q6 SMEM_WCNSS SMEM_DSPS
     IS_ERR_OR_NULL create_ramdump_device).

(** One callback: its result, the device, and the events it adds. *)
Lemma restart_notifier_cb_step (nb : restart_notifier_block) (code : Z)
    (st : restart_state) :
  exists added,
    cb nb code st
    = (NOTIFY_DONE, RestartState (smem_ramdump_dev st) (events st ++ added))
    /\ released_pids added
       = (if code =? SUBSYS_AFTER_SHUTDOWN then [processor nb] else [])
    /\ filter (fun e => is_ramdump e = true) added
       = (if (code =? SUBSYS_AFTER_SHUTDOWN) && negb (smem_ramdump_dev st =? NULL)
          then [Ev_do_elf_ramdump (smem_ramdump_dev st) 1] else []).
Proof.
  unfold restart_notifier_cb.
  destruct (code =? SUBSYS_AFTER_SHUTDOWN).
  - rm_unfold. simpl.
    destruct (smem_ramdump_dev st =? NULL) eqn:D; simpl.
    + exists [Ev_remote_spin_release (processor nb);
              Ev_remote_spin_release_all (processor nb)].
      rewrite <- app_assoc. simpl. repeat split; reflexivity.
    + destruct (do_elf_ramdump _ _ _ <? 0) eqn:R; simpl.
      * eexists [Ev_remote_spin_release (processor nb);
                 Ev_remote_spin_release_all (processor nb);
                 Ev_do_elf_ramdump (smem_ramdump_dev st) 1;
                 Ev_pr_err_dump _].
        rewrite <- !app_assoc. simpl. repeat split; reflexivity.
      * exists [Ev_remote_spin_release (processor nb);
                Ev_remote_spin_release_all (processor nb);
                Ev_do_elf_ramdump (smem_ramdump_dev st) 1].
        rewrite <- !app_assoc. simpl. repeat split; reflexivity.
  - exists []. rewrite app_nil_r. destruct st. repeat split; reflexivity.
Qed.

Lemma released_pids_app (l1 l2 : list restart_event) :
  released_pids (l1 ++ l2) = released_pids l1 ++ released_pids l2.
Proof. unfold released_pids. apply omap_app. Qed.

(** X16: every notification with code [SUBSYS_AFTER_SHUTDOWN] releases
    [remote_spinlock] for the processor of its notifier block, in the
    order of the notifications and whether or not a ramdump is taken or
    fails; no other notification releases it.  Every callback returns
    [NOTIFY_DONE] and leaves [smem_ramdump_dev] alone. *)
Theorem notify_all_releases (calls : list (restart_notifier_block * Z))
    (st : restart_state) :
  released_pids (events (snd (notify calls st)))
  = released_pids (events st)
    ++ map (fun c => processor (fst c)) (shutdown_calls SUBSYS_AFTER_SHUTDOWN calls)
  /\ fst (notify calls st) = map (fun _ => NOTIFY_DONE) calls
  /\ smem_ramdump_dev (snd (notify calls st)) = smem_ramdump_dev st.
Proof.
  revert st. induction calls as [|[nb code] calls IH]; intros st; simpl.
  - rewrite app_nil_r. repeat split; reflexivity.
  - rm_unfold.
    destruct (restart_notifier_cb_step nb code st) as (added & -> & Hrel & _).
    specialize (IH (RestartState (smem_ramdump_dev st) (events st ++ added))).
    destruct (notify calls _) as [rs st2]. simpl in *.
    destruct IH as (IH1 & IH2 & IH3).
    rewrite IH1, IH2, IH3, released_pids_app, Hrel.
    unfold shutdown_calls. rewrite filter_cons. simpl.
    destruct (Z.eqb_spec code SUBSYS_AFTER_SHUTDOWN) as [->|Hne].
    + rewrite decide_True by reflexivity. simpl.
      rewrite <- app_assoc. repeat split; reflexivity.
    + rewrite decide_False by exact Hne.
      rewrite app_nil_r. repeat split; reflexivity.
Qed.

Lemma notify_all_no_dev (calls : list (restart_notifier_block * Z))
    (st : restart_state) :
  smem_ramdump_dev st = NULL ->
  filter (fun e => is_ramdump e = true) (events (snd (notify calls st)))
  = filter (fun e => is_ramdump e = true) (events st).
Proof.
  revert st. induction calls as [|[nb code] calls IH]; intros st Hdev; simpl;
    [reflexivity|].
  rm_unfold.
  destruct (restart_notifier_cb_step nb code st) as (added & -> & _ & Hdump).
  specialize (IH (RestartState (smem_ramdump_dev st) (events st ++ added)) Hdev).
  destruct (notify calls _) as [rs st2]. simpl in *.
  rewrite IH, filter_app, Hdump, Hdev. simpl.
  rewrite andb_false_r, app_nil_r. reflexivity.
Qed.

Lemma register_notifiers_events (l : list restart_notifier_block) (st : restart_state) :
  register_notifiers l st
  = (tt, RestartState (smem_ramdump_dev st)
           (events st ++ map Ev_register_notifier l)).
Proof.
  revert st. induction l as [|nb l IH]; intros st; simpl.
  - rewrite app_nil_r. destruct st. reflexivity.
  - rm_unfold. rewrite IH. simpl. rewrite <- app_assoc. reflexivity.
Qed.

(** X17: [modem_restart_late_init] returns 0 and registers the six
    notifiers of the table, in order, whether or not the ramdump device
    could be created; it keeps the device only when [IS_ERR_OR_NULL]
    rejects nothing about it, and stores [NULL] otherwise. *)
Theorem modem_restart_late_init_spec (st : restart_state) :
  let created := create_ramdump_device (events st) "smem" in
  fst (late_init st) = 0
  /\ smem_ramdump_dev (snd (late_init st))
     = (if IS_ERR_OR_NULL created then NULL else created)
  /\ events (snd (late_init st))
     = events st
       ++ Ev_create_ramdump_device "smem"
          :: (if IS_ERR_OR_NULL created then [Ev_pr_err_create] else [])
       ++ map Ev_register_notifier
            (restart_notifiers SMEM_MODEM SMEM_Q6 SMEM_WCNSS SMEM_DSPS).
Proof.
  intros created. unfold modem_restart_late_init.
  remember (restart_notifiers SMEM_MODEM SMEM_Q6 SMEM_WCNSS SMEM_DSPS) as tbl.
  rm_unfold. simpl. fold created.
  destruct (IS_ERR_OR_NULL created); simpl;
    rewrite register_notifiers_events; simpl;
    rewrite <- ?app_assoc; repeat split; reflexivity.
Qed.

(** X18: when the ramdump device cannot be created,
    [modem_restart_late_init] leaves [smem_ramdump_dev] at [NULL], and no
    later notification, whatever its code, requests a ramdump. *)
Theorem no_ramdump_without_device (calls : list (restart_notifier_block * Z))
    (st : restart_state) :
  IS_ERR_OR_NULL (create_ramdump_device (events st) "smem") = true ->
  smem_ramdump_dev (snd (late_init st)) = NULL
  /\ filter (fun e => is_ramdump e = true)
       (events (snd (notify calls (snd (late_init st)))))
     = filter (fun e => is_ramdump e = true) (events st).
Proof.
  intros Herr.
  assert (Hdev : smem_ramdump_dev (snd (late_init st)) = NULL).
  { unfold modem_restart_late_init.
    remember (restart_notifiers SMEM_MODEM SMEM_Q6 SMEM_WCNSS SMEM_DSPS) as tbl.
    rm_unfold. simpl. rewrite Herr. simpl.
    rewrite register_notifiers_events. reflexivity. }
  split; [exact Hdev|].
  rewrite notify_all_no_dev by exact Hdev.
  unfold modem_restart_late_init.
  remember (restart_notifiers SMEM_MODEM SMEM_Q6 SMEM_WCNSS SMEM_DSPS) as tbl.
  rm_unfold. simpl. rewrite Herr. simpl.
  rewrite register_notifiers_events. simpl.
  rewrite !filter_app. simpl.
  assert (Hreg : forall l, filter (fun e => is_ramdump e = true)
                             (map Ev_register_notifier l) = []).
  { induction l as [|x l IHl]; [reflexivity|]. simpl.
    rewrite filter_cons. simpl. exact IHl. }
  rewrite Hreg, ?filter_cons, ?filter_nil. simpl.
  rewrite ?app_nil_r. reflexivity.
Qed.

End RestartFacts.

Lemma no_ramdump_without_device_witness :
  filter (fun e => is_ramdump e = true)
    (events (snd (notify_all 1 0 demo_do_elf_ramdump
                    [(NotifierBlock 1 "modem", 1); (NotifierBlock 2 "lpass", 0)]
                    (snd (modem_restart_late_init 1 2 4 3 demo_IS_ERR_OR_NULL
                            demo_create_fails demo_restart_state)))))
  = [].
Proof.
  destruct (no_ramdump_without_device 1 2 4 3 1 0 demo_IS_ERR_OR_NULL
              demo_do_elf_ramdump demo_create_fails
              [(NotifierBlock 1 "modem", 1); (NotifierBlock 2 "lpass", 0)]
              demo_restart_state) as [_ H].
  - reflexivity.
  - exact H.
Defined.

(** ** More on translation and lookup *)

(** X19: no containing area, no pointer.  With areas configured, a pair
    whose span from [base] to [base + offset] lies in the physical span of
    no area gives [NULL]; nothing is printed and the early-boot default is
    not consulted. *)
Theorem smem_phys_to_virt_miss (P : platform) (s : smem_state)
    (l : list smem_area) (base off : Z) :
  smem_areas s = Some l -> Forall area_typed l -> u32 base -> u32 off ->
  (forall a, In a l ->
     ~ (phys_addr a <= base /\ base + off < phys_addr a + area_size a)) ->
  smem_phys_to_virt P base off s = (NULL, s).
Proof.
  intros E Hty [Hb0 Hb1] [Ho0 Ho1] Hout. unfold smem_phys_to_virt.
  rewrite OVERFLOW_ADD_UNSIGNED_spec by (unfold u32; lia).
  destruct (Z.leb_spec WORD_MOD (base + off)) as [Hge|Hlt]; [reflexivity|].
  sm_unfold. rewrite E. clear E.
  induction Hty as [|a l Ha Hty IH]; simpl; [reflexivity|].
  destruct (area_skipped a base off) eqn:Hsk.
  - apply IH. intros b Hb. apply Hout. right. exact Hb.
  - exfalso. apply (Hout a); [left; reflexivity|].
    apply area_not_skipped_span; assumption.
Qed.

Lemma smem_phys_to_virt_miss_witness :
  smem_phys_to_virt demo_platform 0x1050 0x200 demo_state = (NULL, demo_state).
Proof.
  apply (smem_phys_to_virt_miss demo_platform demo_state [R0; R1; R2]).
  - reflexivity.
  - apply registry_wf_typed, demo_registry_wf.
  - unfold u32. rewrite WORD_MOD_eq. lia.
  - unfold u32. rewrite WORD_MOD_eq. lia.
  - intros a [<-|[<-|[<-|[]]]]; simpl; lia.
Defined.

(** X20: a slot in an auxiliary area.  For an allocated slot whose
    [reserved] field names (under [BASE_ADDR_MASK]) the physical base of
    an area of a well-formed registry, or names none and the area starts
    at [msm_shared_ram_phys], [smem_get_entry] returns the virtual base of
    that area plus the slot's offset, stores the slot's size, and changes
    nothing. *)
Theorem smem_get_entry_in_area (P : platform) (s : smem_state)
    (l : list smem_area) (a : smem_area) (id : Z) :
  smem_areas s = Some l -> registry_wf l -> In a l ->
  id < SMEM_NUM_ITEMS P ->
  allocated (toc_entry s id) <> 0 ->
  phys_addr a =
    (if wrap (Z.land (reserved (toc_entry s id)) (BASE_ADDR_MASK P)) =? 0
     then msm_shared_ram_phys P
     else wrap (Z.land (reserved (toc_entry s id)) (BASE_ADDR_MASK P))) ->
  0 <= offset (toc_entry s id) < area_size a ->
  smem_get_entry P id s
  = ((virt_addr a + offset (toc_entry s id), Some (size (toc_entry s id))), s).
Proof.
  intros E Hwf Hin Hid Hal Hbase [Ho0 Ho1]. unfold smem_get_entry.
  destruct (Z.leb_spec (SMEM_NUM_ITEMS P) id) as [Hge|_]; [lia|].
  sm_unfold.
  destruct (Z.eqb_spec (allocated (toc_entry s id)) 0) as [C|_];
    [contradiction|].
  simpl. rewrite <- Hbase.
  rewrite (smem_phys_to_virt_hit P s l a) by (assumption || lia).
  reflexivity.
Qed.

Lemma smem_get_entry_in_area_witness :
  smem_get_entry demo_platform 9 demo_state_9
  = ((0xFA300400, Some 16), demo_state_9).
Proof.
  apply (smem_get_entry_in_area demo_platform demo_state_9 [R0; R1; R2] R0 9).
  - reflexivity.
  - exact demo_registry_wf.
  - left. reflexivity.
  - simpl. lia.
  - vm_compute. discriminate.
  - reflexivity.
  - vm_compute. split; [discriminate | reflexivity].
Defined.

(** X21: lookup does not read the heap header.  On two states with the
    same table of contents and the same registry, [smem_get_entry] and
    [smem_find] return the same results, whatever [initialized],
    [free_offset] and [heap_remaining] are. *)
Theorem lookup_ignores_heap_header (P : platform) (s1 s2 : smem_state) (id size_in : Z) :
  heap_toc (shared s1) = heap_toc (shared s2) ->
  smem_areas s1 = smem_areas s2 ->
  fst (smem_get_entry P id s1) = fst (smem_get_entry P id s2)
  /\ fst (smem_find P id size_in s1) = fst (smem_find P id size_in s2).
Proof.
  intros Htoc Har.
  assert (Hent : toc_entry s1 id = toc_entry s2 id)
    by (unfold toc_entry; rewrite Htoc; reflexivity).
  assert (Htr : forall base off,
            fst (smem_phys_to_virt P base off s1)
            = fst (smem_phys_to_virt P base off s2)).
  { intros base off. unfold smem_phys_to_virt.
    destruct (OVERFLOW_ADD_UNSIGNED base off); [reflexivity|].
    sm_unfold. rewrite Har. destruct (smem_areas s2) as [l|].
    - clear Har. induction l as [|a l IH]; simpl; [reflexivity|].
      destruct (area_skipped a base off); [exact IH|].
      destruct (OVERFLOW_ADD_UNSIGNED (virt_addr a) off); reflexivity.
    - destruct (_ && _); [|reflexivity].
      destruct (OVERFLOW_ADD_UNSIGNED _ off); reflexivity. }
  assert (HG : fst (smem_get_entry P id s1) = fst (smem_get_entry P id s2)).
  { unfold smem_get_entry.
    destruct (SMEM_NUM_ITEMS P <=? id); [reflexivity|].
    sm_unfold. rewrite Hent.
    destruct (negb (allocated (toc_entry s2 id) =? 0)); [|reflexivity].
    match goal with
    | |- context [smem_phys_to_virt P ?b ?o s1] =>
        pose proof (Htr b o) as Hbo;
        destruct (smem_phys_to_virt P b o s1) as [r1 t1];
        destruct (smem_phys_to_virt P b o s2) as [r2 t2]
    end.
    simpl in *. rewrite Hbo. reflexivity. }
  split; [exact HG|].
  unfold smem_find. sm_unfold.
  destruct (smem_get_entry P id s1) as [[p1 o1] t1].
  destruct (smem_get_entry P id s2) as [[p2 o2] t2].
  simpl in HG. injection HG as -> ->. simpl.
  destruct (p2 =? NULL); [reflexivity|].
  destruct o2 as [sz|]; [|reflexivity].
  destruct (negb (ALIGN size_in 8 =? sz)); reflexivity.
Qed.

Lemma lookup_ignores_heap_header_witness :
  fst (smem_find demo_platform 9 13
         (State (smem_areas demo_state_9)
            (Shared (HeapInfo 0 0 0) (heap_toc (shared demo_state_9))) []))
  = 0xFA300400.
Proof.
  destruct (lookup_ignores_heap_header demo_platform
              (State (smem_areas demo_state_9)
                 (Shared (HeapInfo 0 0 0) (heap_toc (shared demo_state_9))) [])
              demo_state_9 9 13) as [_ H].
  - reflexivity.
  - reflexivity.
  - rewrite H. reflexivity.
Defined.
